(** * SSM patch notification automation: target resolution, status
      aggregation and session reuse

    Shallow embedding of the three scripts under
    [SSM Patch Notification Automation/]:

    - [Pre-patch.py]                ([runs_today], [get_target_count],
                                     [assume_role], [lambda_handler]);
    - [post-patch-notification.py]  ([get_patch_status_counts],
                                     [post_patch_function]);
    - [combined_notification.py]    (both phases in one file).

    The scripts talk to AWS through boto3 clients.  A client is modelled as
    a record of oracles (one field per API operation the scripts call), and
    every call a script issues is recorded, in order, in a trace of
    [event]s, next to what the script prints.  Python exceptions are the
    [Raised] results of the [M] monad. *)

From Stdlib Require Import ZArith Ascii.
From stdpp Require Import base list gmap strings pretty.

#[local] Set Warnings "-register-all,-clear-no-such-hyp".

Open Scope string_scope.
Open Scope list_scope.

(** ** Exceptions, trace and the script monad *)

Inductive exn :=
  | KeyError (key : string)
  | IndexError
  | AttributeError
  | TypeError
  | ValueError
  | NameError (name : string)
  | StopIteration
  | ClientError (operation : string).

Inductive result (A : Type) :=
  | Ok (a : A)
  | Raised (e : exn).
Arguments Ok {A} a.
Arguments Raised {A} e.

(** JSON documents as [json.loads] builds them. An object keeps its items
    in a list; [dict_get] reads the binding of a key. *)
Inductive json :=
  | JNull
  | JBool (b : bool)
  | JInt (z : Z)
  | JFloat (repr : string)
  | JStr (s : string)
  | JList (items : list json)
  | JDict (items : list (string * json)).

(** ** Data model: what the AWS APIs return *)

(** One rule of a target grouping: [{"Key": ..., "Values": [...]}]. *)
Record rule := { Key : string; Values : list string }.

(** One registered target grouping of a window; the script reads its rules
    with [mw_target.get("Targets", [])]. *)
Record mw_target := { Targets : option (list rule) }.

(** A member of a resource group. *)
Record resource := { ResourceArn : string; ResourceType : string }.

Record instance := { InstanceId : string }.
Record reservation := { Instances : list instance }.

(** A [datetime] object: the date as a day number, the time of day, and
    [tzinfo] as the UTC offset in microseconds ([None] for a naive value). *)
Record datetime := {
  day : Z;
  hour : Z;
  minute : Z;
  second : Z;
  microsecond : Z;
  tzinfo : option Z
}.

(** [NextExecutionTime] reaches [runs_today] as an ISO-8601 string or as a
    [datetime]. *)
Inductive time_value :=
  | TimeStr (s : string)
  | TimeObj (dt : datetime).

(** An entry of [describe_maintenance_windows()["WindowIdentities"]];
    [NextExecutionTime] and [Name] are optional in the script's eyes. *)
Record window_identity := {
  WindowId : string;
  Name : option string;
  NextExecutionTime : option time_value
}.

(** A window execution; [StartTime] is the instant as microseconds since
    the epoch (boto3 hands out timezone-aware datetimes, which Python
    orders by instant). *)
Record execution := { WindowExecutionId : string; StartTime : Z }.

Record task := { TaskExecutionId : string; TaskArn : option string }.

(** The [Parameters] of a task invocation: a string on the wire; the script
    still guards with [isinstance(raw_params, str)]. *)
Inductive param_value :=
  | ParamStr (s : string)
  | ParamNotStr.

Record invocation := {
  Parameters : option param_value;
  ExecutionId : option string
}.

Record command_invocation := {
  Status : option string;
  cmd_InstanceId : option string
}.

(** The filter clause [{"Name": ..., "Values": ...}] handed to
    [describe_instances]. *)
Record tag_filter := { filter_Name : string; filter_Values : list string }.

(** What a script writes with [print]. *)
Inductive message :=
  | MsgUnsupportedRule (key : string)
  | MsgNoWindowsToday
  | MsgNoWindowsScheduled
  | MsgInvalidWindowId (window_id : string)
  | MsgWindowId (window_id : string)
  | MsgExecutionId (execution_id : string)
  | MsgTasks (tasks : list task)
  | MsgEvaluatingTask (task_id : string)
  | MsgOperation (task_id : string) (operation : json)
  | MsgInstallCommand (command_id : option string)
  | MsgInstanceStatus (instance_id status : option string).

(** One entry per call that leaves the process, or per printed line. *)
Inductive event :=
  | Print (m : message)
  | StsAssumeRole (role_arn role_session_name : string)
  | DescribeMaintenanceWindows
  | DescribeMaintenanceWindowTargets (window_id : string)
  | ListGroupResources (group_name : string)
  | DescribeInstances (filters : list tag_filter)
  | DescribeMaintenanceWindowExecutions (window_id : string) (max_results : nat)
  | DescribeMaintenanceWindowExecutionTasks (execution_id : string)
  | DescribeMaintenanceWindowExecutionTaskInvocations (execution_id task_id : string)
  | ListCommandInvocations (command_id : string)
  | S3GetObject (bucket key : string)
  | S3PutObject (bucket key : string) (records : nat)
  | SesSendEmail (subject html_body : string).

Definition M (A : Type) : Type := result A * list event.

Definition ret {A} (a : A) : M A := (Ok a, []).
Definition raise {A} (e : exn) : M A := (Raised e, []).
Definition emit (e : event) : M unit := (Ok tt, [e]).
Definition print (m : message) : M unit := emit (Print m).

Definition bind {A B} (m : M A) (k : A -> M B) : M B :=
  match m with
  | (Ok a, t1) => let (r, t2) := k a in (r, t1 ++ t2)
  | (Raised e, t1) => (Raised e, t1)
  end.

Notation "'let*' x ':=' m 'in' k" := (bind m (fun x => k))
  (at level 10, x name, m at level 100, k at level 200).
Notation "m ';;;' k" := (bind m (fun _ => k))
  (at level 100, k at level 200, right associativity).

(** A [for] loop whose body updates the loop-carried variables [s]. *)
Fixpoint for_each {A S} (l : list A) (body : A -> S -> M S) (s : S) : M S :=
  match l with
  | [] => ret s
  | x :: l' => let* s' := body x s in for_each l' body s'
  end.

Definition value_of {A} (m : M A) : result A := fst m.
Definition trace_of {A} (m : M A) : list event := snd m.

(** ** Python string helpers *)

Definition startswith (s p : string) : bool := String.prefix p s.

(** [s.split(sep)] for a non-empty [sep]: the pieces between the
    occurrences of [sep], scanned from the left without overlap. [skip]
    counts the characters of a matched separator still to drop, [cur] the
    piece read so far, reversed. *)
Fixpoint split_from (sep s : string) (skip : nat) (cur : string) : list string :=
  match s with
  | EmptyString => [String.rev cur]
  | String c s' =>
      match skip with
      | S k => split_from sep s' k cur
      | O =>
          if String.prefix sep s
          then String.rev cur :: split_from sep s' (String.length sep - 1) ""
          else split_from sep s' 0 (String c cur)
      end
  end.

Definition split (s sep : string) : list string := split_from sep s 0 "".

(** [needle in haystack] on two strings. *)
Fixpoint str_contains (needle haystack : string) : bool :=
  String.prefix needle haystack ||
  match haystack with
  | EmptyString => false
  | String _ h' => str_contains needle h'
  end.

(** [l[i]] *)
Definition getitem {A} (l : list A) (i : nat) : M A :=
  match l !! i with
  | Some x => ret x
  | None => raise IndexError
  end.

(** [row[key]] on a [csv.DictReader] row *)
Definition row_get (row : gmap string string) (key : string) : M string :=
  match row !! key with
  | Some v => ret v
  | None => raise (KeyError key)
  end.

(** ** Clients *)

Record ssm_client := {
  describe_maintenance_windows : list window_identity;
  describe_maintenance_window_targets : string -> list mw_target;
  describe_maintenance_window_executions : string -> nat -> list execution;
  describe_maintenance_window_execution_tasks : string -> list task;
  (* paginated: the pages of one walk *)
  describe_maintenance_window_execution_task_invocations :
    string -> string -> list (list invocation);
  list_command_invocations : string -> list (list command_invocation)
}.

Record ec2_client := {
  describe_instances : list tag_filter -> list (list reservation)
}.

Record resourcegroups_client := {
  list_group_resources : string -> list (list resource)
}.

Record s3_client := {
  get_object_rows : string -> string -> list (gmap string string)
}.

Record Session := {
  client_ssm : ssm_client;
  client_ec2 : ec2_client;
  client_s3 : s3_client;
  client_resourcegroups : resourcegroups_client
}.

(** ** Target resolver ([get_target_count]) *)

Module TargetResolver.

(** Inner loops of case 3: one page of [list_group_resources], counting
  only the members of type [AWS::EC2::Instance]. *)
Definition count_page (page : list resource) (count : nat) : nat :=
fold_left
  (fun count resource =>
     if String.eqb (ResourceType resource) "AWS::EC2::Instance"
     then count + 1 else count)
  page count.

Definition count_group_pages (pages : list (list resource)) : nat :=
fold_left (fun count page => count_page page count) pages 0.

(** [for group_name in values: ... total += count] *)
Definition resolve_group (resourcegroups : resourcegroups_client)
  (group_name : string) (total : nat) : M nat :=
emit (ListGroupResources group_name);;;
let count := count_group_pages (list_group_resources resourcegroups group_name) in
ret (total + count).

(** The body of [for rule in mw_target.get("Targets", [])]; the
  loop-carried variables are [total] and [tag_filters]. *)
Definition rule_body (resourcegroups : resourcegroups_client) (r : rule)
  (st : nat * list tag_filter) : M (nat * list tag_filter) :=
let '(total, tag_filters) := st in
let key := Key r in
let values := Values r in
if String.eqb key "InstanceIds" then
  ret (total + length values, tag_filters)
else if startswith key "tag:" then
  let* tag_key := getitem (split key "tag:") 1 in
  ret (total,
       tag_filters ++ [{| filter_Name := "tag:" +:+ tag_key;
                          filter_Values := values |}])
else if String.eqb key "resource-groups:Name" then
  let* total := for_each values (resolve_group resourcegroups) total in
  ret (total, tag_filters)
else
  print (MsgUnsupportedRule key);;;
  ret (total, tag_filters).

(** The three nested loops that fill [instance_ids = set()]. *)
Definition add_reservation (res : reservation) (instance_ids : gset string)
  : gset string :=
fold_left (fun ids i => {[ InstanceId i ]} ∪ ids) (Instances res) instance_ids.

Definition add_page (page : list reservation) (instance_ids : gset string)
  : gset string :=
fold_left (fun ids res => add_reservation res ids) page instance_ids.

Definition collect_instance_ids (pages : list (list reservation)) : gset string :=
fold_left (fun ids page => add_page page ids) pages ∅.

(** [if tag_filters: ... total += len(instance_ids)] *)
Definition resolve_tags (ec2 : ec2_client) (tag_filters : list tag_filter)
  (total : nat) : M nat :=
match tag_filters with
| [] => ret total
| _ :: _ =>
    emit (DescribeInstances tag_filters);;;
    let instance_ids := collect_instance_ids (describe_instances ec2 tag_filters) in
    ret (total + size instance_ids)
end.

(** The body of [for mw_target in targets_response["Targets"]]. *)
Definition target_body (ec2 : ec2_client) (resourcegroups : resourcegroups_client)
  (t : mw_target) (total : nat) : M nat :=
let* st :=
  for_each (default [] (Targets t)) (rule_body resourcegroups) (total, []) in
let '(total, tag_filters) := st in
resolve_tags ec2 tag_filters total.

Definition get_target_count (ssm : ssm_client) (ec2 : ec2_client)
  (resourcegroups : resourcegroups_client) (window_id : string) : M nat :=
emit (DescribeMaintenanceWindowTargets window_id);;;
let targets := describe_maintenance_window_targets ssm window_id in
for_each targets (target_body ec2 resourcegroups) 0.

End TargetResolver.


(** ** Status aggregator ([get_patch_status_counts]) *)

(** [executions.sort(key=..., reverse=True)]: Python's sort is stable, also
    under [reverse=True], so entries with equal keys keep their input
    order. [insert_desc] puts [x] in front of a descending run that came
    after it in the input: behind the strictly larger keys, ahead of the
    equal ones. *)
Fixpoint insert_desc {A} (key : A -> Z) (x : A) (l : list A) : list A :=
  match l with
  | [] => [x]
  | y :: l' =>
      if (key x <? key y)%Z then y :: insert_desc key x l' else x :: y :: l'
  end.

Definition sort_reverse {A} (key : A -> Z) (l : list A) : list A :=
  foldr (insert_desc key) [] l.

(** [d.get(key, default)]: a method of dicts only. *)
Fixpoint assoc (key : string) (items : list (string * json)) : option json :=
  match items with
  | [] => None
  | (k, v) :: items' => if String.eqb k key then Some v else assoc key items'
  end.

Definition dict_get (d : json) (key : string) (dflt : json) : M json :=
  match d with
  | JDict items => ret (default dflt (assoc key items))
  | _ => raise AttributeError
  end.

Definition is_str (s : string) (j : json) : bool :=
  match j with
  | JStr s' => String.eqb s s'
  | _ => false
  end.

(** [s in container]: list membership, substring test, dict key test;
    the other JSON values are not iterable. *)
Definition py_in (s : string) (container : json) : M bool :=
  match container with
  | JList items => ret (existsb (is_str s) items)
  | JStr h => ret (str_contains s h)
  | JDict items => ret (existsb (fun kv => String.eqb (fst kv) s) items)
  | _ => raise TypeError
  end.

Section StatusAggregator.

(** [json.loads]; [None] stands for [json.JSONDecodeError]. *)
Variable json_loads : string -> option json.

(** The tuple of the [elif inst_status in (...)] test; the two scripts
    differ in it. *)
Variable failure_statuses : list string.

(** The [if]/[elif] on one per-host status. *)
Definition count_status (inst_status : option string) (st : nat * nat)
    : nat * nat :=
  let '(success, failure) := st in
  match inst_status with
  | Some s =>
      if String.eqb s "Success" then (success + 1, failure)
      else if existsb (String.eqb s) failure_statuses then (success, failure + 1)
      else (success, failure)
  | None => (success, failure)
  end.

(** The body of [for cmd_inv in cmd_page["CommandInvocations"]]. *)
Definition cmd_inv_body (cmd_inv : command_invocation) (st : nat * nat)
    : M (nat * nat) :=
  let inst_status := Status cmd_inv in
  let instance_id := cmd_InstanceId cmd_inv in
  print (MsgInstanceStatus instance_id inst_status);;;
  ret (count_status inst_status st).

(** [raw_params = inv.get("Parameters", "")] up to the end of the
    [try]/[except json.JSONDecodeError]. *)
Definition parse_operation (inv : invocation) : M json :=
  let raw_params := default (ParamStr "") (Parameters inv) in
  let operation := JList [] in
  match raw_params with
  | ParamStr s =>
      if negb (String.eqb s "") then
        match json_loads s with
        | Some parsed =>
            let* parameters := dict_get parsed "parameters" (JDict []) in
            dict_get parameters "Operation" (JList [])
        | None => ret operation
        end
      else ret operation
  | ParamNotStr => ret operation
  end.

(** The body of
    [for inv in page["WindowExecutionTaskInvocationIdentities"]]. *)
Definition inv_body (ssm : ssm_client) (task_id : string) (inv : invocation)
    (st : nat * nat) : M (nat * nat) :=
  let* operation := parse_operation inv in
  print (MsgOperation task_id operation);;;
  let* is_install := py_in "Install" operation in
  if negb is_install then ret st
  else
    let command_id := ExecutionId inv in
    print (MsgInstallCommand command_id);;;
    (* [if not command_id: continue] : [None] and [""] are falsy *)
    match command_id with
    | None => ret st
    | Some cid =>
        if String.eqb cid "" then ret st
        else
          emit (ListCommandInvocations cid);;;
          for_each (list_command_invocations ssm cid)
            (fun cmd_page st => for_each cmd_page cmd_inv_body st) st
    end.

(** The body of [for task in tasks]. *)
Definition task_body (ssm : ssm_client) (execution_id : string) (t : task)
    (st : nat * nat) : M (nat * nat) :=
  if negb (bool_decide (TaskArn t = Some "AWS-RunPatchBaseline")) then ret st
  else
    let task_id := TaskExecutionId t in
    print (MsgEvaluatingTask task_id);;;
    emit (DescribeMaintenanceWindowExecutionTaskInvocations execution_id task_id);;;
    for_each
      (describe_maintenance_window_execution_task_invocations ssm execution_id task_id)
      (fun page st => for_each page (inv_body ssm task_id) st) st.

Definition get_patch_status_counts (ssm : ssm_client) (window_id : string)
    : M (nat * nat) :=
  if negb (startswith window_id "mw-") then
    print (MsgInvalidWindowId window_id);;;
    ret (0, 0)
  else
    print (MsgWindowId window_id);;;
    emit (DescribeMaintenanceWindowExecutions window_id 10);;;
    let executions := describe_maintenance_window_executions ssm window_id 10 in
    match executions with
    | [] => ret (0, 0)
    | _ :: _ =>
        let executions := sort_reverse StartTime executions in
        let* latest := getitem executions 0 in
        let execution_id := WindowExecutionId latest in
        print (MsgExecutionId execution_id);;;
        let success := 0 in
        let failure := 0 in
        emit (DescribeMaintenanceWindowExecutionTasks execution_id);;;
        let tasks := describe_maintenance_window_execution_tasks ssm execution_id in
        print (MsgTasks tasks);;;
        for_each tasks (task_body ssm execution_id) (success, failure)
    end.

End StatusAggregator.

(** The two scripts that carry the aggregator. *)
Module PostPatch.
Definition failure_statuses : list string :=
  ["Failed"; "TimedOut"; "Cancelled"; "ExecutionTimedOut"].
Definition get_patch_status_counts json_loads :=
  get_patch_status_counts json_loads failure_statuses.
End PostPatch.

Module Combined.
Definition failure_statuses : list string :=
  ["Failed"; "TimedOut"; "Cancelled"; "ExecutionTimedOut"; "In Progress"].
Definition get_patch_status_counts json_loads :=
  get_patch_status_counts json_loads failure_statuses.
End Combined.

(** ** Window scheduler filter ([runs_today]) *)

(** [sep.join(pieces)] and [s.replace(old, new)] for a non-empty [old]. *)
Fixpoint join (sep : string) (pieces : list string) : string :=
  match pieces with
  | [] => ""
  | [p] => p
  | p :: rest => p +:+ sep +:+ join sep rest
  end.

Definition replace (s old new : string) : string := join new (split s old).

Definition us_per_second : Z := 1000000.
Definition us_per_minute : Z := 60 * us_per_second.
Definition us_per_hour : Z := 60 * us_per_minute.
Definition us_per_day : Z := 24 * us_per_hour.

(** The instant a datetime denotes, in microseconds; Python orders aware
    datetimes by it. *)
Definition instant (dt : datetime) : Z :=
  day dt * us_per_day + hour dt * us_per_hour + minute dt * us_per_minute
  + second dt * us_per_second + microsecond dt - default 0%Z (tzinfo dt).

(** [datetime.now(timezone.utc)] when the clock reads [clock] microseconds
    since the epoch. *)
Definition datetime_now_utc (clock : Z) : datetime :=
  {| day := clock / us_per_day;
     hour := (clock mod us_per_day) / us_per_hour;
     minute := (clock mod us_per_hour) / us_per_minute;
     second := (clock mod us_per_minute) / us_per_second;
     microsecond := clock mod us_per_second;
     tzinfo := Some 0%Z |}.

(** [dt.replace(tzinfo=timezone.utc)] *)
Definition replace_tzinfo_utc (dt : datetime) : datetime :=
  {| day := day dt; hour := hour dt; minute := minute dt; second := second dt;
     microsecond := microsecond dt; tzinfo := Some 0%Z |}.

(** [dt.replace(hour=0, minute=0, second=0, microsecond=0)] *)
Definition replace_midnight (dt : datetime) : datetime :=
  {| day := day dt; hour := 0; minute := 0; second := 0; microsecond := 0;
     tzinfo := tzinfo dt |}.

(** [dt + timedelta(days=n)] *)
Definition add_days (dt : datetime) (n : Z) : datetime :=
  {| day := day dt + n; hour := hour dt; minute := minute dt;
     second := second dt; microsecond := microsecond dt; tzinfo := tzinfo dt |}.

Section Scheduler.

(** [datetime.fromisoformat]; [None] stands for [ValueError]. *)
Variable fromisoformat : string -> option datetime.

(** The reading of the clock when [runs_today] asks for it. *)
Variable clock : Z.

Definition runs_today (next_execution_time : time_value) : M bool :=
  let* next_execution_time :=
    match next_execution_time with
    | TimeStr s =>
        match fromisoformat (replace s "Z" "+00:00") with
        | Some dt => ret dt
        | None => raise ValueError
        end
    | TimeObj dt => ret dt
    end in
  let next_execution_time :=
    match tzinfo next_execution_time with
    | None => replace_tzinfo_utc next_execution_time
    | Some _ => next_execution_time
    end in
  let now_utc := datetime_now_utc clock in
  let start_of_today := replace_midnight now_utc in
  let end_of_today := add_days start_of_today 1 in
  ret ((instant start_of_today <=? instant next_execution_time)%Z
       && (instant next_execution_time <? instant end_of_today)%Z).

End Scheduler.

(** ** Credential broker, pre-run handler and post-run loop *)

Record credentials := {
  AccessKeyId : string;
  SecretAccessKey : string;
  SessionToken : string
}.

(** The rows the two phases build. *)
Record forecast_row := {
  f_AccountId : string;
  f_Region : string;
  f_RoleName : string;
  f_MaintenanceWindowId : string;
  f_MaintenanceWindowName : string;
  f_TargetInstanceCount : nat
}.

Record outcome_row := {
  o_AccountId : string;
  o_Region : string;
  o_RoleName : string;
  o_MaintenanceWindowId : string;
  o_MaintenanceWindowName : string;
  o_TargetInstanceCount : string;
  o_Success : nat;
  o_Failure : nat
}.

(** The dict [lambda_handler] returns. *)
Record handler_result := {
  status : string;
  records_written : nat;
  result_message : option string
}.

(** The four variables of the single-slot session memo. *)
Record cache := {
  cached_session : option Session;
  cached_account_id : option string;
  cached_role_name : option string;
  cached_region : option string
}.

Definition empty_cache : cache :=
  {| cached_session := None; cached_account_id := None;
     cached_role_name := None; cached_region := None |}.

Section Handlers.

(** The world outside the scripts. *)
Variable sts_assume_role : string -> string -> option credentials.
Variable boto3_Session : string -> string -> string -> string -> Session.
Variable fromisoformat : string -> option datetime.
Variable clock : Z.
Variable json_loads : string -> option json.
Variable failure_statuses : list string.
(** [csv.DictReader] over a file next to the script, and over a file of
    the working directory. *)
Variable read_csv_local : string -> list (gmap string string).
Variable open_csv : string -> list (gmap string string).
(** Report rendering. *)
Variable build_html_table_pre : list forecast_row -> string.
Variable build_html_table_post : list outcome_row -> string.

Definition assume_role (account_id role_name region : string) : M Session :=
  let role_arn := "arn:aws:iam::" +:+ account_id +:+ ":role/" +:+ role_name in
  emit (StsAssumeRole role_arn "MWCheckSession");;;
  match sts_assume_role role_arn "MWCheckSession" with
  | Some creds =>
      ret (boto3_Session (AccessKeyId creds) (SecretAccessKey creds)
             (SessionToken creds) region)
  | None => raise (ClientError "AssumeRole")
  end.

(** [load_email_config] / [load_shared_account]: the first row of the
    file, as [(account_id, role_name, region)]. *)
Definition load_shared_account (csv_file : string)
    : M (string * string * string) :=
  match open_csv csv_file with
  | [] => raise StopIteration
  | row :: _ =>
      let* account_id := row_get row "account_id" in
      let* role_name := row_get row "role_name" in
      let* region := row_get row "region" in
      ret (account_id, role_name, region)
  end.

Definition write_csv_to_s3 {R} (bucket key : string) (rows : list R) : M unit :=
  match rows with
  | [] => raise IndexError
  | _ :: _ => emit (S3PutObject bucket key (length rows))
  end.

Definition send_email_ses (subject html_body : string) : M unit :=
  emit (SesSendEmail subject html_body).

(** The body of [for mw in response["WindowIdentities"]]. *)
Definition window_body (account_id role_name region : string) (session : Session)
    (mw : window_identity) (output_rows : list forecast_row)
    : M (list forecast_row) :=
  match NextExecutionTime mw with
  | None => ret output_rows
  | Some next_execution_time =>
      if negb (startswith (default "" (Name mw)) "mmpatching") then ret output_rows
      else
        let* today := runs_today fromisoformat clock next_execution_time in
        if today then
          let* target_count :=
            TargetResolver.get_target_count (client_ssm session)
              (client_ec2 session) (client_resourcegroups session) (WindowId mw) in
          let* name :=
            match Name mw with
            | Some n => ret n
            | None => raise (KeyError "Name")
            end in
          ret (output_rows ++
               [{| f_AccountId := account_id;
                   f_Region := region;
                   f_RoleName := role_name;
                   f_MaintenanceWindowId := WindowId mw;
                   f_MaintenanceWindowName := name;
                   f_TargetInstanceCount := target_count |}])
        else ret output_rows
  end.

(** The body of [for row in pre_patch_rows] of [lambda_handler]. *)
Definition account_body (row : gmap string string)
    (output_rows : list forecast_row) : M (list forecast_row) :=
  let* account_id := row_get row "account_id" in
  let* role_name := row_get row "role_name" in
  let* region := row_get row "region" in
  let* session := assume_role account_id role_name region in
  emit DescribeMaintenanceWindows;;;
  let response := describe_maintenance_windows (client_ssm session) in
  for_each response (window_body account_id role_name region session) output_rows.

Definition OUTPUT_BUCKET := "mmpatching-custom-patchbaseline-dev".
Definition OUTPUT_KEY := "pre_patch_notification/mw-running-today-output.csv".

Definition lambda_handler : M handler_result :=
  let pre_patch_rows := read_csv_local "accounts.csv" in
  let* output_rows := for_each pre_patch_rows account_body [] in
  match output_rows with
  | [] =>
      print MsgNoWindowsToday;;;
      ret {| status := "success"; records_written := 0;
             result_message := Some "No MWs found, notification skipped" |}
  | _ :: _ =>
      let* email_cfg := load_shared_account "email_account.csv" in
      let '(account_id, role_name, region) := email_cfg in
      let* session := assume_role account_id role_name region in
      write_csv_to_s3 OUTPUT_BUCKET OUTPUT_KEY output_rows;;;
      let html_body := build_html_table_pre output_rows in
      send_email_ses "Maintenance Windows Running Today" html_body;;;
      ret {| status := "success"; records_written := length output_rows;
             result_message := None |}
  end.

(** Lines "Assume role only if account / role / region changed" up to
    [session = cached_session]: the memo after the test, and the session
    the row works with. *)
Definition cached_assume_role (account_id role_name region : string) (c : cache)
    : M (cache * Session) :=
  let refresh :=
    let* session := assume_role account_id role_name region in
    ret ({| cached_session := Some session;
            cached_account_id := Some account_id;
            cached_role_name := Some role_name;
            cached_region := Some region |}, session) in
  match cached_session c with
  | None => refresh
  | Some session =>
      if bool_decide (Some account_id ≠ cached_account_id c)
         || bool_decide (Some role_name ≠ cached_role_name c)
         || bool_decide (Some region ≠ cached_region c)
      then refresh
      else ret (c, session)
  end.

(** The body of [for row in pre_patch_rows] of [post_patch_function]. *)
Definition row_body (row : gmap string string)
    (st : list outcome_row * cache) : M (list outcome_row * cache) :=
  let '(post_patch_rows, c) := st in
  let* account_id := row_get row "AccountId" in
  let* role_name := row_get row "RoleName" in
  let* region := row_get row "Region" in
  let* window_id := row_get row "MaintenanceWindowId" in
  let* window_name := row_get row "MaintenanceWindowName" in
  let* cs := cached_assume_role account_id role_name region c in
  let '(c, session) := cs in
  let ssm := client_ssm session in
  let* counts := get_patch_status_counts json_loads failure_statuses ssm window_id in
  let '(success, failure) := counts in
  let* target_count := row_get row "TargetInstanceCount" in
  ret (post_patch_rows ++
       [{| o_AccountId := account_id;
           o_Region := region;
           o_RoleName := role_name;
           o_MaintenanceWindowId := window_id;
           o_MaintenanceWindowName := window_name;
           o_TargetInstanceCount := target_count;
           o_Success := success;
           o_Failure := failure |}], c).

Definition INPUT_BUCKET := "mmpatching-custom-patchbaseline-dev".
Definition PRE_PATCH_KEY := "pre_patch_notification/mw-running-today-output.csv".
Definition POST_PATCH_KEY := "post_patch_notification/mw-post-patch-output.csv".

Definition read_csv_from_s3 (s3 : s3_client) (bucket key : string)
    : M (list (gmap string string)) :=
  emit (S3GetObject bucket key);;;
  ret (get_object_rows s3 bucket key).

Definition post_patch_function : M unit :=
  let* shared := load_shared_account "email_account.csv" in
  let '(account_id, role_name, region) := shared in
  let* session := assume_role account_id role_name region in
  let s3 := client_s3 session in
  let* pre_patch_rows := read_csv_from_s3 s3 INPUT_BUCKET PRE_PATCH_KEY in
  (match pre_patch_rows with
   | [] =>
       print MsgNoWindowsScheduled;;;
       (* [sys.exit(0)], and no script imports [sys] *)
       raise (NameError "sys")
   | _ :: _ => ret tt
   end);;;
  let* st := for_each pre_patch_rows row_body ([], empty_cache) in
  let '(post_patch_rows, _) := st in
  let* email_cfg := load_shared_account "email_account.csv" in
  let '(account_id, role_name, region) := email_cfg in
  let* session := assume_role account_id role_name region in
  write_csv_to_s3 INPUT_BUCKET POST_PATCH_KEY post_patch_rows;;;
  let html_body := build_html_table_post post_patch_rows in
  send_email_ses "Post Patch Status Report" html_body.

End Handlers.

(** * Vocabulary of the statements *)

Definition is_ec2_instance (r : resource) : bool :=
  String.eqb (ResourceType r) "AWS::EC2::Instance".

(** All host identifiers one tag-filter walk returns, duplicates kept. *)
Definition all_ids (pages : list (list reservation)) : list string :=
  InstanceId <$> concat (Instances <$> concat pages).

(** Lengths of the explicit identifier lists of a window. *)
Definition explicit_ids_total (targets : list mw_target) : nat :=
  sum_list ((fun t => sum_list ((fun r => length (Values r)) <$> default [] (Targets t)))
            <$> targets).

Section Counts.

Variable ec2 : ec2_client.
Variable resourcegroups : resourcegroups_client.

(** The instance members a resource group lists, over all its pages. *)
Definition group_count (group_name : string) : nat :=
  length (List.filter is_ec2_instance
            (concat (list_group_resources resourcegroups group_name))).

(** What one rule adds to [total], and to [tag_filters]. *)
Definition rule_count (r : rule) : nat :=
  if String.eqb (Key r) "InstanceIds" then length (Values r)
  else if startswith (Key r) "tag:" then 0
  else if String.eqb (Key r) "resource-groups:Name"
       then sum_list (group_count <$> Values r)
  else 0.

Definition rule_filters (r : rule) : list tag_filter :=
  if String.eqb (Key r) "InstanceIds" then []
  else if startswith (Key r) "tag:"
       then [{| filter_Name := "tag:" +:+ default "" (split (Key r) "tag:" !! 1);
                filter_Values := Values r |}]
  else [].

(** What one grouping adds to [total]: its rules, then its tag query. *)
Definition tags_count (tag_filters : list tag_filter) : nat :=
  match tag_filters with
  | [] => 0
  | _ :: _ => length (remove_dups (all_ids (describe_instances ec2 tag_filters)))
  end.

Definition grouping_count (t : mw_target) : nat :=
  let rules := default [] (Targets t) in
  sum_list (rule_count <$> rules) + tags_count (concat (rule_filters <$> rules)).

End Counts.

(** The window execution an event asks about. *)
Definition execution_of (ev : event) : option string :=
  match ev with
  | DescribeMaintenanceWindowExecutionTasks x => Some x
  | DescribeMaintenanceWindowExecutionTaskInvocations x _ => Some x
  | _ => None
  end.

Section Day.

Variable fromisoformat : string -> option datetime.
Variable clock : Z.

(** The datetime [runs_today] works with. *)
Definition normalized (next_execution_time : time_value) : option datetime :=
  match next_execution_time with
  | TimeStr s => fromisoformat (replace s "Z" "+00:00")
  | TimeObj dt => Some dt
  end.

(** Midnight (UTC) of the day the clock is in. *)
Definition start_of_utc_day : Z := (clock / us_per_day * us_per_day)%Z.

End Day.

(** The memo is empty, or holds a session with the triple it was made
    for. *)
Definition cache_wf (c : cache) : Prop :=
  c = empty_cache
  \/ exists session account_id role_name region,
       c = {| cached_session := Some session;
              cached_account_id := Some account_id;
              cached_role_name := Some role_name;
              cached_region := Some region |}.

Definition cached_key (c : cache) : option string * option string * option string :=
  (cached_account_id c, cached_role_name c, cached_region c).

Definition role_arn (account_id role_name : string) : string :=
  "arn:aws:iam::" +:+ account_id +:+ ":role/" +:+ role_name.

(** * A concrete deployment

    One account with a window that runs today, an account whose role
    cannot be assumed, and the latest window execution with one [Install]
    invocation over five hosts. *)

Module Scenario.

Definition dq : string := String (ascii_of_nat 34) "".

(** The [Parameters] text of a patch-baseline invocation. *)
Definition payload (operation : string) : string :=
  "{" +:+ dq +:+ "parameters" +:+ dq +:+ ": {" +:+ dq +:+ "Operation" +:+ dq
      +:+ ": [" +:+ dq +:+ operation +:+ dq +:+ "]}}".

(** [json.loads] on the payloads that occur here; any other text is
    malformed. *)
Definition json_loads (s : string) : option json :=
  if String.eqb s (payload "Install") then
    Some (JDict [("parameters", JDict [("Operation", JList [JStr "Install"])])])
  else if String.eqb s (payload "Scan") then
    Some (JDict [("parameters", JDict [("Operation", JList [JStr "Scan"])])])
  else None.

Definition fromisoformat (_ : string) : option datetime := None.

(** 2023-11-14 22:13:20 UTC *)
Definition clock : Z := 1700000000000000.

Definition at_utc (d h : Z) : datetime :=
  {| day := d; hour := h; minute := 0; second := 0; microsecond := 0;
     tzinfo := Some 0%Z |}.

Definition window : window_identity :=
  {| WindowId := "mw-0a1b2c3d4e5f60718";
     Name := Some "mmpatching-weekly";
     NextExecutionTime := Some (TimeObj (at_utc 19675 23)) |}.

Definition targets (window_id : string) : list mw_target :=
  if String.eqb window_id "mw-0a1b2c3d4e5f60718" then
    [{| Targets := Some [{| Key := "InstanceIds"; Values := ["i-01"; "i-02"; "i-03"] |};
                         {| Key := "tag:PatchGroup"; Values := ["prod"] |}] |}]
  else if String.eqb window_id "mw-explicit" then
    [{| Targets := Some [{| Key := "InstanceIds"; Values := ["i-01"; "i-02"] |}] |};
     {| Targets := None |};
     {| Targets := Some [{| Key := "InstanceIds"; Values := ["i-01"] |};
                         {| Key := "InstanceIds"; Values := [] |}] |}]
  else if String.eqb window_id "mw-overlap" then
    [{| Targets := Some [{| Key := "resource-groups:Name"; Values := ["web"] |};
                         {| Key := "tag:Name"; Values := ["web-1"] |}] |}]
  else [].

Definition executions : list execution :=
  [{| WindowExecutionId := "exec-old"; StartTime := 1699900000000000 |};
   {| WindowExecutionId := "exec-new"; StartTime := 1699990000000000 |};
   {| WindowExecutionId := "exec-twin"; StartTime := 1699990000000000 |}].

Definition host_statuses : list string :=
  ["Success"; "Success"; "Failed"; "InProgress"; "Success"].

Definition ssm : ssm_client :=
  {| describe_maintenance_windows := [window];
     describe_maintenance_window_targets := targets;
     describe_maintenance_window_executions := fun _ _ => executions;
     describe_maintenance_window_execution_tasks := fun execution_id =>
       if String.eqb execution_id "exec-new" then
         [{| TaskExecutionId := "task-notify"; TaskArn := Some "AWS-RunShellScript" |};
          {| TaskExecutionId := "task-patch"; TaskArn := Some "AWS-RunPatchBaseline" |}]
       else [];
     describe_maintenance_window_execution_task_invocations := fun _ _ =>
       [[{| Parameters := Some (ParamStr (payload "Install"));
            ExecutionId := Some "cmd-install" |}]];
     list_command_invocations := fun _ =>
       [(fun s => {| Status := Some s; cmd_InstanceId := Some "i-01" |})
          <$> host_statuses] |}.

(** Two distinct hosts, one of them returned twice. *)
Definition ec2 : ec2_client :=
  {| describe_instances := fun _ =>
       [[{| Instances := [{| InstanceId := "i-10" |}; {| InstanceId := "i-11" |}] |}];
        [{| Instances := [{| InstanceId := "i-10" |}] |}]] |}.

(** The tag query and the resource group both know host [i-01]. *)
Definition ec2_web : ec2_client :=
  {| describe_instances := fun _ =>
       [[{| Instances := [{| InstanceId := "i-01" |}] |}]] |}.

Definition web_instance : resource :=
  {| ResourceArn := "arn:aws:ec2:us-east-1:111111111111:instance/i-01";
     ResourceType := "AWS::EC2::Instance" |}.

Definition resourcegroups : resourcegroups_client :=
  {| list_group_resources := fun _ =>
       [[web_instance;
         {| ResourceArn := "arn:aws:ec2:us-east-1:111111111111:volume/vol-01";
            ResourceType := "AWS::EC2::Volume" |}]] |}.

Definition session : Session :=
  {| client_ssm := ssm; client_ec2 := ec2;
     client_s3 := {| get_object_rows := fun _ _ => [] |};
     client_resourcegroups := resourcegroups |}.

(** The broker refuses account 999999999999. *)
Definition sts_assume_role (role_arn _ : string) : option credentials :=
  if String.eqb role_arn "arn:aws:iam::999999999999:role/PatchRole" then None
  else Some {| AccessKeyId := "AKIA"; SecretAccessKey := "secret";
               SessionToken := "token" |}.

Definition boto3_Session (_ _ _ _ : string) : Session := session.

Definition account (account_id : string) : gmap string string :=
  <["account_id" := account_id]>
    (<["role_name" := "PatchRole"]> {["region" := "us-east-1"]}).

Definition refused : gmap string string := account "999999999999".
Definition granted : gmap string string := account "111111111111".

Definition open_csv (_ : string) : list (gmap string string) := [granted].
Definition build_html_table_pre (_ : list forecast_row) : string := "<html>".

(** [lambda_handler] over the accounts file [accounts]. *)
Definition pre_run (accounts : list (gmap string string)) : M handler_result :=
  lambda_handler sts_assume_role boto3_Session fromisoformat clock
    (fun _ => accounts) open_csv build_html_table_pre.

End Scenario.

(** * Vocabulary of the further properties *)

(** The tasks the aggregator looks into. *)
Definition is_patch_task (t : task) : bool :=
  bool_decide (TaskArn t = Some "AWS-RunPatchBaseline").

(** The two tests of the per-host [if]/[elif]. *)
Definition is_success (inst_status : option string) : bool :=
  match inst_status with
  | Some s => String.eqb s "Success"
  | None => false
  end.

Definition is_failure (failure_statuses : list string)
    (inst_status : option string) : bool :=
  match inst_status with
  | Some s => negb (String.eqb s "Success") && existsb (String.eqb s) failure_statuses
  | None => false
  end.

(** The line printed for one per-host result. *)
Definition status_line (cmd_inv : command_invocation) : event :=
  Print (MsgInstanceStatus (cmd_InstanceId cmd_inv) (Status cmd_inv)).

(** The statuses of the per-host results a run has printed, in order. *)
Definition examined (t : list event) : list (option string) :=
  omap (fun ev => match ev with
                  | Print (MsgInstanceStatus _ inst_status) => Some inst_status
                  | _ => None
                  end) t.

Definition successes (statuses : list (option string)) : nat :=
  length (List.filter is_success statuses).

Definition failures (failure_statuses : list string)
    (statuses : list (option string)) : nat :=
  length (List.filter (is_failure failure_statuses) statuses).

Definition is_dict (j : json) : bool :=
  match j with
  | JDict _ => true
  | _ => false
  end.

(** The values [in] cannot be asked of. *)
Definition not_iterable (j : json) : bool :=
  match j with
  | JNull | JBool _ | JInt _ | JFloat _ => true
  | _ => false
  end.



Section InScope.

Variable sts_assume_role : string -> string -> option credentials.
Variable boto3_Session : string -> string -> string -> string -> Session.
Variable fromisoformat : string -> option datetime.
Variable clock : Z.

(** The answer of [runs_today] on a time it can read. *)
Definition falls_today (next_execution_time : time_value) : bool :=
  match normalized fromisoformat next_execution_time with
  | Some dt =>
      (start_of_utc_day clock <=? instant dt)%Z
      && (instant dt <? start_of_utc_day clock + us_per_day)%Z
  | None => false
  end.

(** The windows the pre-run loop keeps. *)
Definition in_scope (mw : window_identity) : bool :=
  match NextExecutionTime mw with
  | None => false
  | Some next_execution_time =>
      startswith (default "" (Name mw)) "mmpatching"
      && falls_today next_execution_time
  end.

(** The next execution time of a window that passes the name test can be
    read as a datetime. *)
Definition readable (mw : window_identity) : Prop :=
  forall next_execution_time,
    NextExecutionTime mw = Some next_execution_time ->
    startswith (default "" (Name mw)) "mmpatching" = true ->
    is_Some (normalized fromisoformat next_execution_time).

(** The forecast row of a window kept by the loop. *)
Definition forecast_of (account_id role_name region : string) (session : Session)
    (mw : window_identity) : forecast_row :=
  {| f_AccountId := account_id;
     f_Region := region;
     f_RoleName := role_name;
     f_MaintenanceWindowId := WindowId mw;
     f_MaintenanceWindowName := default "" (Name mw);
     f_TargetInstanceCount :=
       sum_list (grouping_count (client_ec2 session) (client_resourcegroups session)
                 <$> describe_maintenance_window_targets (client_ssm session)
                       (WindowId mw)) |}.

(** An accounts-file row the loop gets through: its three columns are
    there, the broker grants the role, and the windows can be read. *)
Definition account_session (row : gmap string string) : option Session :=
  account_id ← row !! "account_id";
  role_name ← row !! "role_name";
  region ← row !! "region";
  creds ← sts_assume_role (role_arn account_id role_name) "MWCheckSession";
  Some (boto3_Session (AccessKeyId creds) (SecretAccessKey creds)
          (SessionToken creds) region).

Definition account_ok (row : gmap string string) : Prop :=
  exists session,
    account_session row = Some session
    /\ Forall readable (describe_maintenance_windows (client_ssm session)).

(** The forecast rows of one account. *)
Definition account_rows (row : gmap string string) : list forecast_row :=
  match account_session row with
  | Some session =>
      forecast_of (default "" (row !! "account_id")) (default "" (row !! "role_name"))
                  (default "" (row !! "region")) session
      <$> List.filter in_scope (describe_maintenance_windows (client_ssm session))
  | None => []
  end.

End InScope.

(** The window an event asks the targets of. *)
Definition target_query_of (ev : event) : option string :=
  match ev with
  | DescribeMaintenanceWindowTargets window_id => Some window_id
  | _ => None
  end.

(** Staging writes and mail. *)
Definition is_delivery (ev : event) : bool :=
  match ev with
  | S3PutObject _ _ _ | SesSendEmail _ _ => true
  | _ => false
  end.

(** The identity columns of a staged row, and the number of rows of a
    list whose identity differs from that of the row before ([prev] for
    the first row). *)
Definition row_key (row : gmap string string)
    : option string * option string * option string :=
  (row !! "AccountId", row !! "RoleName", row !! "Region").

Fixpoint key_changes (prev : option string * option string * option string)
    (rows : list (gmap string string)) : nat :=
  match rows with
  | [] => 0
  | row :: rows' =>
      (if decide (prev = row_key row) then 0 else 1) + key_changes (row_key row) rows'
  end.

(** The identity the memo holds when a row is reached: that of the row
    before it, and no identity before the first row. *)
Definition last_key (before : list (gmap string string))
    : option string * option string * option string :=
  from_option row_key (None, None, None) (last before).

Definition is_assume_role (ev : event) : bool :=
  match ev with
  | StsAssumeRole _ _ => true
  | _ => false
  end.

(** An outcome row carries the columns of the staged row it was made
    for. *)
Definition carried (row : gmap string string) (o : outcome_row) : Prop :=
  row !! "AccountId" = Some (o_AccountId o)
  /\ row !! "Region" = Some (o_Region o)
  /\ row !! "RoleName" = Some (o_RoleName o)
  /\ row !! "MaintenanceWindowId" = Some (o_MaintenanceWindowId o)
  /\ row !! "MaintenanceWindowName" = Some (o_MaintenanceWindowName o)
  /\ row !! "TargetInstanceCount" = Some (o_TargetInstanceCount o).

(** * More of the deployment

    Payloads of other shapes, the day after, and a staging file. *)

Module Staged.

(** A payload whose [Operation] is null. *)
Definition null_operation : string :=
  "{" +:+ Scenario.dq +:+ "parameters" +:+ Scenario.dq +:+ ": {" +:+ Scenario.dq
      +:+ "Operation" +:+ Scenario.dq +:+ ": null}}".

Definition json_loads (s : string) : option json :=
  if String.eqb s "[1, 2]" then Some (JList [JInt 1; JInt 2])
  else if String.eqb s null_operation then
    Some (JDict [("parameters", JDict [("Operation", JNull)])])
  else Scenario.json_loads s.

Definition invocation_with (payload : string) (command_id : option string)
    : invocation :=
  {| Parameters := Some (ParamStr payload); ExecutionId := command_id |}.

(** Two days after [Scenario.clock]. *)
Definition later : Z := 1700172800000000.

Definition staged_row (account_id window_id : string) : gmap string string :=
  <["AccountId" := account_id]>
    (<["Region" := "us-east-1"]>
       (<["RoleName" := "PatchRole"]>
          (<["MaintenanceWindowId" := window_id]>
             (<["MaintenanceWindowName" := "mmpatching-weekly"]>
                {["TargetInstanceCount" := "5"]})))).

Definition rows : list (gmap string string) :=
  [staged_row "111111111111" "mw-0a1b2c3d4e5f60718";
   staged_row "111111111111" "mw-explicit";
   staged_row "222222222222" "mw-overlap";
   staged_row "111111111111" "window-7"].

(** A session whose staging bucket holds [rows]. *)
Definition session : Session :=
  {| client_ssm := Scenario.ssm; client_ec2 := Scenario.ec2;
     client_s3 := {| get_object_rows := fun _ _ => rows |};
     client_resourcegroups := Scenario.resourcegroups |}.

Definition boto3_Session (_ _ _ _ : string) : Session := session.
Definition build_html_table_post (_ : list outcome_row) : string := "<html>".

End Staged.

(** * Report builder ([build_html_table]) *)

(** The values of a row dict: text, or a count. *)
Inductive value :=
  | VStr (s : string)
  | VInt (z : Z).

Definition value_to_sum (v : value) : string + Z :=
  match v with
  | VStr s => inl s
  | VInt z => inr z
  end.

Definition value_of_sum (x : string + Z) : value :=
  match x with
  | inl s => VStr s
  | inr z => VInt z
  end.

Lemma value_of_sum_to_sum v : value_of_sum (value_to_sum v) = v.
Proof. by destruct v. Qed.

#[global] Instance value_eq_dec : EqDecision value.
Proof. solve_decision. Defined.

#[global] Instance value_countable : Countable value :=
  inj_countable' value_to_sum value_of_sum value_of_sum_to_sum.

(** A row dict: its items in insertion order, the keys distinct. *)
Definition item (key : string) (row : list (string * value)) : option value :=
  snd <$> List.find (fun kv => String.eqb (fst kv) key) row.

(** [str(value)] *)
Definition str (v : value) : string :=
  match v with
  | VStr s => s
  | VInt z => pretty z
  end.

(** [c.isupper()] and [c.isspace()] on the characters of ASCII text. *)
Definition isupper (c : ascii) : bool :=
  let n := nat_of_ascii c in ((65 <=? n) && (n <=? 90))%nat.

Definition isspace (c : ascii) : bool :=
  let n := nat_of_ascii c in
  (((9 <=? n) && (n <=? 13)) || ((28 <=? n) && (n <=? 32)))%nat.

(** [s.strip()] *)
Fixpoint lstrip (s : string) : string :=
  match s with
  | EmptyString => EmptyString
  | String c s' => if isspace c then lstrip s' else s
  end.

Definition rstrip (s : string) : string := String.rev (lstrip (String.rev s)).
Definition strip (s : string) : string := rstrip (lstrip s).

(** [html.escape(s)] : the five replacements, [&] first. *)
Definition dq : string := String (ascii_of_nat 34) "".
Definition nl : string := String (ascii_of_nat 10) "".

Definition html_escape (s : string) : string :=
  let s := replace s "&" "&amp;" in
  let s := replace s "<" "&lt;" in
  let s := replace s ">" "&gt;" in
  let s := replace s dq "&quot;" in
  replace s "'" "&#x27;".

(** [Counter(...)] and [counter[key]]. *)
Definition Counter (l : list value) : gmap value nat :=
  fold_left (fun counts v => <[v := S (default 0 (counts !! v))]> counts) l ∅.

Definition counter_get (counts : gmap value nat) (v : value) : nat :=
  default 0 (counts !! v).

Module Report.

Definition no_rows_page : string :=
  join nl [""; "        <html>"; "          <body>";
           "            <p>No Maintenance Windows running today.</p>";
           "          </body>"; "        </html>"; "        "].

(** The opening of the page, around the introductory sentence. *)
Definition table_head (intro_message : string) : string :=
  join nl [""; "    <html>"; "    <body>"; "      <p>Hello Team,</p>";
           "      <p>" +:+ intro_message +:+ "</p>";
           "";
           "      <table border=" +:+ dq +:+ "1" +:+ dq +:+ " cellpadding=" +:+ dq
             +:+ "6" +:+ dq +:+ " cellspacing=" +:+ dq +:+ "0" +:+ dq;
           "             style=" +:+ dq
             +:+ "border-collapse:collapse; font-family:Arial, sans-serif; font-size:13px;"
             +:+ dq +:+ ">";
           "        <tr style=" +:+ dq
             +:+ "background-color:#f2f2f2; font-weight:bold;" +:+ dq +:+ ">";
           "    "].

Definition table_tail : string :=
  join nl [""; "      </table>"; ""; "      <br>";
           "      <p>Regards,<br>Patch Automation</p>"; "    </body>";
           "    </html>"; "    "].

Definition excluded_fields : list string :=
  ["MaintenanceWindowId"; "Region"; "RoleName"].

(** ["".join(f" {c}" if c.isupper() else c for c in header)] *)
Fixpoint spread (header : string) : string :=
  match header with
  | EmptyString => EmptyString
  | String c header' =>
      if isupper c then String " " (String c (spread header'))
      else String c (spread header')
  end.

Definition prettify_header (header : string) : string := strip (spread header).

(** The body of [for header in headers] inside the row loop; the
    loop-carried variables are [html_body] and [rendered_accounts]. *)
Definition cell_step (account_counts : gmap value nat) (row : list (string * value))
    (st : string * gset value) (header : string) : string * gset value :=
  let '(html_body, rendered_accounts) := st in
  let value := default (VStr "") (item header row) in
  if String.eqb header "AccountId" then
    if decide (value ∉ rendered_accounts) then
      let rowspan := counter_get account_counts value in
      (html_body +:+ ("<td rowspan='" +:+ pretty rowspan +:+ "' "
                      +:+ "style='vertical-align:middle;'>"
                      +:+ html_escape (str value) +:+ "</td>"),
       {[value]} ∪ rendered_accounts)
    else (html_body, rendered_accounts)
  else (html_body +:+ ("<td>" +:+ html_escape (str value) +:+ "</td>"),
        rendered_accounts).

(** The body of [for row in output_rows]. *)
Definition row_step (account_counts : gmap value nat) (headers : list string)
    (st : string * gset value) (row : list (string * value))
    : string * gset value :=
  let '(html_body, rendered_accounts) := st in
  let html_body := html_body +:+ "<tr>" in
  let '(html_body, rendered_accounts) :=
    fold_left (cell_step account_counts row) headers (html_body, rendered_accounts) in
  (html_body +:+ "</tr>", rendered_accounts).

(** [build_html_table] from its first non-empty-input line on, for the
    introductory sentence [intro_message]. *)
Definition build_with (intro_message : string)
    (output_rows : list (list (string * value))) : result string :=
  match output_rows with
  | [] => Ok no_rows_page
  | first :: _ =>
      let headers :=
        List.filter (fun h => negb (bool_decide (h ∈ excluded_fields))) (fst <$> first) in
      match mapM (item "AccountId") output_rows with
      | None => Raised (KeyError "AccountId")
      | Some accounts =>
          let account_counts := Counter accounts in
          let html_body := table_head intro_message in
          let html_body :=
            fold_left
              (fun html_body header =>
                 html_body +:+ ("<th>" +:+ html_escape (prettify_header header) +:+ "</th>"))
              headers html_body in
          let html_body := html_body +:+ "</tr>" in
          let '(html_body, _) :=
            fold_left (row_step account_counts headers) output_rows (html_body, ∅) in
          Ok (html_body +:+ table_tail)
      end
  end.

(** [Pre-patch.py] *)
Definition build_html_table_pre (output_rows : list (list (string * value))) :=
  build_with "Below are the Maintenance Windows running today:" output_rows.

(** [post-patch-notification.py] *)
Definition build_html_table_post (output_rows : list (list (string * value))) :=
  build_with "Below is the Post Patch Status of Maintenance windows:" output_rows.

(** [combined_notification.py] *)
Definition build_html_table (output_rows : list (list (string * value)))
    (patch_phase : string) : result string :=
  match output_rows with
  | [] => Ok no_rows_page
  | _ :: _ =>
      let intro_message :=
        if String.eqb patch_phase "post"
        then "Below is the Post Patch Status of Maintenance windows:"
        else "Below are the Maintenance Windows running today:" in
      build_with intro_message output_rows
  end.

(** The dicts the two phases append to their row lists. *)
Definition forecast_dict (r : forecast_row) : list (string * value) :=
  [("AccountId", VStr (f_AccountId r));
   ("Region", VStr (f_Region r));
   ("RoleName", VStr (f_RoleName r));
   ("MaintenanceWindowId", VStr (f_MaintenanceWindowId r));
   ("MaintenanceWindowName", VStr (f_MaintenanceWindowName r));
   ("TargetInstanceCount", VInt (Z.of_nat (f_TargetInstanceCount r)))].

Definition outcome_dict (r : outcome_row) : list (string * value) :=
  [("AccountId", VStr (o_AccountId r));
   ("Region", VStr (o_Region r));
   ("RoleName", VStr (o_RoleName r));
   ("MaintenanceWindowId", VStr (o_MaintenanceWindowId r));
   ("MaintenanceWindowName", VStr (o_MaintenanceWindowName r));
   ("TargetInstanceCount", VStr (o_TargetInstanceCount r));
   ("Success", VInt (Z.of_nat (o_Success r)));
   ("Failure", VInt (Z.of_nat (o_Failure r)))].

End Report.

(** ** Vocabulary of the report properties *)

(** ["".join(pieces)] *)
Definition concat_str (pieces : list string) : string :=
  foldr String.append "" pieces.

(** The text without its blanks. *)
Fixpoint unspace (s : string) : string :=
  match s with
  | EmptyString => EmptyString
  | String c s' => if Ascii.eqb c " " then unspace s' else String c (unspace s')
  end.

(** No character of the text is white space. *)
Fixpoint no_space (s : string) : bool :=
  match s with
  | EmptyString => true
  | String c s' => negb (isspace c) && no_space s'
  end.

Module ReportSpec.
Import Report.

(** The account a row is shown under, and the number of rows of a list
    shown under an account. *)
Definition account_of (row : list (string * value)) : value :=
  default (VStr "") (item "AccountId" row).

Definition occurrences (v : value) (rows : list (list (string * value))) : nat :=
  length (List.filter (fun row => bool_decide (account_of row = v)) rows).

(** The columns of the table: the keys of the first row, the excluded
    ones left out. *)
Definition columns (first : list (string * value)) : list string :=
  List.filter (fun h => negb (bool_decide (h ∈ excluded_fields))) (fst <$> first).

Definition th (header : string) : string :=
  "<th>" +:+ html_escape (prettify_header header) +:+ "</th>".

Definition plain_cell (v : value) : string :=
  "<td>" +:+ html_escape (str v) +:+ "</td>".

Definition account_cell (rowspan : nat) (v : value) : string :=
  "<td rowspan='" +:+ pretty rowspan +:+ "' " +:+ "style='vertical-align:middle;'>"
  +:+ html_escape (str v) +:+ "</td>".

(** The cell of [row] in column [header], in a table of rows [all] where
    the rows [earlier] come before [row]. *)
Definition cell_html (all earlier : list (list (string * value)))
    (row : list (string * value)) (header : string) : string :=
  if String.eqb header "AccountId" then
    if bool_decide (account_of row ∈ account_of <$> earlier) then ""
    else account_cell (occurrences (account_of row) all) (account_of row)
  else plain_cell (default (VStr "") (item header row)).

Definition row_html (headers : list string) (all earlier : list (list (string * value)))
    (row : list (string * value)) : string :=
  "<tr>" +:+ concat_str (cell_html all earlier row <$> headers) +:+ "</tr>".

Fixpoint rows_html (headers : list string) (all earlier rows : list (list (string * value)))
    : string :=
  match rows with
  | [] => ""
  | row :: rest =>
      row_html headers all earlier row
      +:+ rows_html headers all (earlier ++ [row]) rest
  end.

End ReportSpec.

(** All white space of the text is blanks. *)
Fixpoint blanks_only (s : string) : bool :=
  match s with
  | EmptyString => true
  | String c s' => (negb (isspace c) || Ascii.eqb c " ") && blanks_only s'
  end.

(** * Properties *)

(** ** The monad and its loops *)

Lemma bind_ok {A B} (a : A) (t : list event) (k : A -> M B) :
  bind (Ok a, t) k = (fst (k a), t ++ snd (k a)).
Proof. unfold bind. by destruct (k a). Qed.

Lemma bind_ret {A B} (a : A) (k : A -> M B) : bind (ret a) k = k a.
Proof. unfold bind, ret. by destruct (k a). Qed.

Lemma bind_raised {A B} (e : exn) (t : list event) (k : A -> M B) :
  bind (Raised e, t) k = (Raised e, t).
Proof. reflexivity. Qed.

Lemma bind_assoc {A B C} (m : M A) (k : A -> M B) (h : B -> M C) :
  bind (bind m k) h = bind m (fun a => bind (k a) h).
Proof.
  destruct m as [[a|e] t]; simpl; [|done].
  destruct (k a) as [[b|e] t2]; simpl; [|done].
  destruct (h b) as [r t3]. by rewrite app_assoc.
Qed.

Lemma bind_ext {A B} (m : M A) (k k' : A -> M B) :
  (forall a, k a = k' a) -> bind m k = bind m k'.
Proof. intros H. destruct m as [[a|e] t]; simpl; [by rewrite H|done]. Qed.

Lemma for_each_app {A S} (l1 l2 : list A) (body : A -> S -> M S) (s : S) :
  for_each (l1 ++ l2) body s
  = bind (for_each l1 body s) (fun s' => for_each l2 body s').
Proof.
  revert s. induction l1 as [|x l1 IH]; intros s; cbn [for_each app].
  - by rewrite bind_ret.
  - rewrite bind_assoc. by apply bind_ext.
Qed.

Lemma value_of_bind {A B} (m : M A) (k : A -> M B) :
  value_of (bind m k)
  = match value_of m with
    | Ok a => value_of (k a)
    | Raised e => Raised e
    end.
Proof.
  destruct m as [[a|e] t]; simpl; [|done]. by destruct (k a).
Qed.

(** A loop whose body never raises returns the fold of its results. *)
Lemma for_each_value {A S} (f : A -> S -> S) (l : list A) (body : A -> S -> M S) (s : S) :
  (forall x s, value_of (body x s) = Ok (f x s)) ->
  value_of (for_each l body s) = Ok (fold_left (fun s x => f x s) l s).
Proof.
  intros H. revert s. induction l as [|x l IH]; intros s; cbn [for_each fold_left].
  - done.
  - by rewrite value_of_bind, H, IH.
Qed.

(** A property of every event of every iteration holds of the loop. *)
Lemma for_each_trace {A S} (P : event -> Prop) (l : list A)
    (body : A -> S -> M S) (s : S) :
  (forall x s, Forall P (trace_of (body x s))) ->
  Forall P (trace_of (for_each l body s)).
Proof.
  intros H. revert s. induction l as [|x l IH]; intros s; cbn [for_each].
  - by constructor.
  - specialize (H x s). destruct (body x s) as [[s'|e] t]; simpl in *; [|done].
    specialize (IH s'). destruct (for_each l body s') as [r t2]; simpl in *.
    by apply Forall_app.
Qed.

Lemma fold_left_add {A} (f : A -> nat) (l : list A) (n : nat) :
  fold_left (fun s x => s + f x) l n = n + sum_list (f <$> l).
Proof.
  revert n. induction l as [|x l IH]; intros n; csimpl; [lia|].
  rewrite IH. lia.
Qed.

(** ** Target resolver *)

Section TargetResolverFacts.
Import TargetResolver.

Lemma count_page_spec page count :
  count_page page count = count + length (List.filter is_ec2_instance page).
Proof.
  unfold count_page. revert count.
  induction page as [|r page IH]; intros count; simpl; [lia|].
  rewrite IH. unfold is_ec2_instance.
  destruct (String.eqb (ResourceType r) "AWS::EC2::Instance"); simpl; lia.
Qed.

Lemma count_group_pages_spec pages :
  count_group_pages pages = length (List.filter is_ec2_instance (concat pages)).
Proof.
  unfold count_group_pages.
  enough (forall n, fold_left (fun count page => count_page page count) pages n
                    = n + length (List.filter is_ec2_instance (concat pages)))
    as H by apply H.
  induction pages as [|p pages IH]; intros n; simpl; [lia|].
  rewrite IH, count_page_spec, List.filter_app, length_app. lia.
Qed.

Lemma add_reservation_spec res ids :
  add_reservation res ids = list_to_set (InstanceId <$> Instances res) ∪ ids.
Proof.
  unfold add_reservation. revert ids.
  induction (Instances res) as [|i l IH]; intros ids; simpl.
  - set_solver.
  - rewrite IH. set_solver.
Qed.

Lemma add_page_spec page ids :
  add_page page ids = list_to_set (InstanceId <$> concat (Instances <$> page)) ∪ ids.
Proof.
  unfold add_page. revert ids.
  induction page as [|r page IH]; intros ids; simpl.
  - set_solver.
  - rewrite IH, add_reservation_spec, fmap_app, list_to_set_app_L. set_solver.
Qed.

Lemma collect_instance_ids_spec pages :
  collect_instance_ids pages = list_to_set (all_ids pages).
Proof.
  unfold collect_instance_ids.
  enough (forall ids, fold_left (fun ids page => add_page page ids) pages ids
                      = list_to_set (all_ids pages) ∪ ids)
    as H by (rewrite H; set_solver).
  unfold all_ids.
  induction pages as [|p pages IH]; intros ids; simpl.
  - set_solver.
  - rewrite IH, add_page_spec, !fmap_app, concat_app, fmap_app, list_to_set_app_L.
    set_solver.
Qed.

Lemma size_collect_instance_ids pages :
  size (collect_instance_ids pages) = length (remove_dups (all_ids pages)).
Proof.
  rewrite collect_instance_ids_spec.
  rewrite <- (size_list_to_set (C := gset string) (remove_dups (all_ids pages)))
    by apply NoDup_remove_dups.
  f_equal. apply set_eq. intros x.
  by rewrite !elem_of_list_to_set, elem_of_remove_dups.
Qed.

End TargetResolverFacts.

Section TargetResolverProperties.
Import TargetResolver.

Variables (ssm : ssm_client) (ec2 : ec2_client)
          (resourcegroups : resourcegroups_client).

Lemma rules_explicit_only rules total tag_filters :
  Forall (fun r => Key r = "InstanceIds") rules ->
  for_each rules (rule_body resourcegroups) (total, tag_filters)
  = ret (total + sum_list ((fun r => length (Values r)) <$> rules), tag_filters).
Proof.
  intros H. revert total.
  induction H as [|r rules Hr _ IH]; intros total; cbn [for_each].
  - simpl. by rewrite Nat.add_0_r.
  - unfold rule_body at 1. rewrite Hr. cbn [String.eqb Ascii.eqb Bool.eqb].
    rewrite bind_ret, IH. simpl. by rewrite Nat.add_assoc.
Qed.

Lemma targets_explicit_only targets total :
  Forall (fun t => Forall (fun r => Key r = "InstanceIds") (default [] (Targets t)))
         targets ->
  for_each targets (target_body ec2 resourcegroups) total
  = ret (total + explicit_ids_total targets).
Proof.
  intros H. revert total.
  induction H as [|t targets Ht _ IH]; intros total; cbn [for_each].
  - unfold explicit_ids_total. simpl. by rewrite Nat.add_0_r.
  - unfold target_body at 1. rewrite (rules_explicit_only _ _ _ Ht), bind_ret.
    cbn [resolve_tags]. rewrite bind_ret, IH.
    unfold explicit_ids_total. simpl. by rewrite Nat.add_assoc.
Qed.

(** C4. A window whose rules are all explicit identifier lists (key
    [InstanceIds]) resolves to the sum of the lengths of those lists over
    all groupings and rules; the only call issued is the fetch of the
    window's target groupings: no host listing and no resource-group
    membership query. *)
Theorem explicit_ids_only_sum window_id :
  Forall (fun t => Forall (fun r => Key r = "InstanceIds") (default [] (Targets t)))
         (describe_maintenance_window_targets ssm window_id) ->
  get_target_count ssm ec2 resourcegroups window_id
  = (Ok (explicit_ids_total (describe_maintenance_window_targets ssm window_id)),
     [DescribeMaintenanceWindowTargets window_id]).
Proof.
  intros H. unfold get_target_count.
  by rewrite (targets_explicit_only _ 0 H).
Qed.

(** What [key.split("tag:")[1]] finds in a key that starts with
    [tag:]. *)
Lemma split_from_cons sep s k cur :
  exists p rest, split_from sep s k cur = p :: rest.
Proof.
  revert k cur. induction s as [|c s IH]; intros k cur; cbn [split_from]; [by eauto|].
  destruct k; [|by apply IH].
  destruct (String.prefix sep (String c s)); [by eauto|by apply IH].
Qed.

Lemma split_tag_key tag_key :
  split ("tag:" +:+ tag_key) "tag:" !! 1 = Some (hd "" (split tag_key "tag:")).
Proof.
  unfold split.
  change ("tag:" +:+ tag_key)
    with (String "t"%char (String "a"%char (String "g"%char (String ":"%char tag_key)))).
  cbn.
  replace (String.prefix "" tag_key) with true by (by destruct tag_key).
  destruct (split_from_cons "tag:" tag_key 0 "") as (p & rest & Hs).
  by rewrite Hs.
Qed.

Lemma startswith_tag key :
  startswith key "tag:" = true -> exists tag_key, key = "tag:" +:+ tag_key.
Proof.
  unfold startswith. intros H.
  destruct key as [|c1 [|c2 [|c3 [|c4 rest]]]]; simpl in H; try done;
    repeat (match type of H with
            | (if ?d then _ else _) = true => destruct d; [subst|done]
            end); try done.
  by exists rest.
Qed.

Lemma resolve_groups_value groups total :
  value_of (for_each groups (resolve_group resourcegroups) total)
  = Ok (total + sum_list (group_count resourcegroups <$> groups)).
Proof.
  rewrite (for_each_value (fun g total => total + group_count resourcegroups g)).
  - f_equal. apply fold_left_add.
  - intros g n. unfold resolve_group, group_count.
    by rewrite count_group_pages_spec.
Qed.

Lemma rule_body_value r total tag_filters :
  value_of (rule_body resourcegroups r (total, tag_filters))
  = Ok (total + rule_count resourcegroups r, tag_filters ++ rule_filters r).
Proof.
  unfold rule_body, rule_count, rule_filters.
  destruct (String.eqb (Key r) "InstanceIds").
  { simpl. by rewrite app_nil_r. }
  destruct (startswith (Key r) "tag:") eqn:Htag.
  { destruct (startswith_tag _ Htag) as [tag_key Hk].
    unfold getitem. rewrite Hk, split_tag_key. simpl. by rewrite Nat.add_0_r. }
  destruct (String.eqb (Key r) "resource-groups:Name").
  { rewrite value_of_bind, resolve_groups_value. simpl. by rewrite app_nil_r. }
  simpl. by rewrite Nat.add_0_r, app_nil_r.
Qed.

Lemma rules_value rules total tag_filters :
  value_of (for_each rules (rule_body resourcegroups) (total, tag_filters))
  = Ok (total + sum_list (rule_count resourcegroups <$> rules),
        tag_filters ++ concat (rule_filters <$> rules)).
Proof.
  revert total tag_filters.
  induction rules as [|r rules IH]; intros total tag_filters; cbn [for_each].
  - simpl. by rewrite Nat.add_0_r, app_nil_r.
  - rewrite value_of_bind, rule_body_value, IH. simpl.
    by rewrite Nat.add_assoc, <- app_assoc.
Qed.

Lemma resolve_tags_value tag_filters total :
  value_of (resolve_tags ec2 tag_filters total) = Ok (total + tags_count ec2 tag_filters).
Proof.
  destruct tag_filters as [|f fs]; simpl.
  - by rewrite Nat.add_0_r.
  - by rewrite size_collect_instance_ids.
Qed.

Lemma target_body_value t total :
  value_of (target_body ec2 resourcegroups t total)
  = Ok (total + grouping_count ec2 resourcegroups t).
Proof.
  unfold target_body, grouping_count.
  rewrite value_of_bind, rules_value. cbn [app].
  rewrite resolve_tags_value. by rewrite Nat.add_assoc.
Qed.

(** The total is a plain sum: per grouping, the lengths of the explicit
    lists, the instance members of every named resource group, and the
    distinct hosts of the grouping's one tag query. *)
Lemma get_target_count_value window_id :
  value_of (get_target_count ssm ec2 resourcegroups window_id)
  = Ok (sum_list (grouping_count ec2 resourcegroups
                  <$> describe_maintenance_window_targets ssm window_id)).
Proof.
  unfold get_target_count. rewrite value_of_bind. simpl.
  rewrite (for_each_value (fun t total => total + grouping_count ec2 resourcegroups t))
    by apply target_body_value.
  f_equal. apply (fold_left_add (grouping_count ec2 resourcegroups)).
Qed.

Lemma rule_body_tag tag_key values total tag_filters :
  rule_body resourcegroups {| Key := "tag:" +:+ tag_key; Values := values |}
    (total, tag_filters)
  = ret (total,
         tag_filters ++ [{| filter_Name := "tag:" +:+ hd "" (split tag_key "tag:");
                            filter_Values := values |}]).
Proof.
  unfold rule_body, getitem. cbn [Key Values].
  rewrite split_tag_key.
  change ("tag:" +:+ tag_key)
    with (String "t"%char (String "a"%char (String "g"%char (String ":"%char tag_key)))).
  unfold startswith. cbn.
  replace (String.prefix "" tag_key) with true by (by destruct tag_key).
  done.
Qed.

Lemma rule_body_group group_name total tag_filters :
  rule_body resourcegroups {| Key := "resource-groups:Name"; Values := [group_name] |}
    (total, tag_filters)
  = (Ok (total + group_count resourcegroups group_name, tag_filters),
     [ListGroupResources group_name]).
Proof.
  unfold rule_body, group_count. cbn. by rewrite count_group_pages_spec.
Qed.

(** C2. A grouping that carries a resource-group rule and a tag-filter
    rule, both of which resolve to the one host [h] (the group lists it as
    its only instance member [r], the tag query returns no other host),
    reports 2: the group's member count is added when the rule is met, the
    tag query's distinct hosts when the grouping's rules are exhausted,
    and nothing relates the two. In general the total is the plain sum
    [grouping_count] over the groupings, with no term shared between
    explicit lists, resource groups and the tag query. *)
Theorem resource_group_and_tag_filter_both_count
    window_id group_name tag_key tag_values rules r h :
  let rg_rule := {| Key := "resource-groups:Name"; Values := [group_name] |} in
  let tag_rule := {| Key := "tag:" +:+ tag_key; Values := tag_values |} in
  let tag_clause := {| filter_Name := "tag:" +:+ hd "" (split tag_key "tag:");
                       filter_Values := tag_values |} in
  describe_maintenance_window_targets ssm window_id = [{| Targets := Some rules |}] ->
  rules = [rg_rule; tag_rule] \/ rules = [tag_rule; rg_rule] ->
  List.filter is_ec2_instance (concat (list_group_resources resourcegroups group_name))
    = [r] ->
  remove_dups (all_ids (describe_instances ec2 [tag_clause])) = [h] ->
  get_target_count ssm ec2 resourcegroups window_id
  = (Ok 2, [DescribeMaintenanceWindowTargets window_id;
            ListGroupResources group_name;
            DescribeInstances [tag_clause]])
  /\ forall w, value_of (get_target_count ssm ec2 resourcegroups w)
               = Ok (sum_list (grouping_count ec2 resourcegroups
                               <$> describe_maintenance_window_targets ssm w)).
Proof.
  intros rg_rule tag_rule tag_clause Htargets Hrules Hgroup Htags.
  split; [|apply get_target_count_value].
  unfold get_target_count. rewrite Htargets.
  cbn [for_each]. unfold target_body. cbn [Targets default from_option id].
  assert (group_count resourcegroups group_name = 1) as Hg
    by (unfold group_count; by rewrite Hgroup).
  assert (size (collect_instance_ids (describe_instances ec2 [tag_clause])) = 1) as Ht
    by (by rewrite size_collect_instance_ids, Htags).
  destruct Hrules as [-> | ->]; cbn [for_each]; unfold rg_rule, tag_rule.
  - rewrite rule_body_group, Hg, bind_ok. cbn [fst snd].
    rewrite rule_body_tag. fold tag_clause. cbn. by rewrite Ht.
  - rewrite rule_body_tag, bind_ret, rule_body_group, Hg.
    fold tag_clause. cbn. by rewrite Ht.
Qed.

Lemma all_ids_app pages1 pages2 :
  all_ids (pages1 ++ pages2) = all_ids pages1 ++ all_ids pages2.
Proof. unfold all_ids. by rewrite concat_app, fmap_app, concat_app, fmap_app. Qed.

(** C5. The hosts one grouping's tag query returns are gathered in a set
    before they are counted: the grouping adds the number of distinct
    identifiers, whatever the number of clauses or pages that returned
    each, and one more occurrence of an identifier already returned leaves
    the count as it was. *)
Theorem tag_filter_hosts_counted_once tag_filters total :
  tag_filters <> [] ->
  resolve_tags ec2 tag_filters total
  = (Ok (total + length (remove_dups (all_ids (describe_instances ec2 tag_filters)))),
     [DescribeInstances tag_filters])
  /\ forall pages1 pages2 i,
       InstanceId i ∈ all_ids (pages1 ++ pages2) ->
       size (collect_instance_ids (pages1 ++ [[{| Instances := [i] |}]] ++ pages2))
       = size (collect_instance_ids (pages1 ++ pages2)).
Proof.
  intros Hne. split.
  - destruct tag_filters as [|f fs]; [done|]. cbn.
    by rewrite size_collect_instance_ids.
  - intros pages1 pages2 i Hin. f_equal.
    rewrite !collect_instance_ids_spec, !all_ids_app.
    rewrite all_ids_app in Hin.
    change (all_ids [[{| Instances := [i] |}]]) with [InstanceId i].
    set_solver.
Qed.

End TargetResolverProperties.

(** ** Status aggregator *)

Lemma trace_bind {A B} (P : event -> Prop) (m : M A) (k : A -> M B) :
  Forall P (trace_of m) ->
  (forall a, Forall P (trace_of (k a))) ->
  Forall P (trace_of (bind m k)).
Proof.
  intros Hm Hk. destruct m as [[a|e] t]; simpl in *; [|done].
  specialize (Hk a). destruct (k a) as [r t2]; simpl in *.
  by apply Forall_app.
Qed.

Lemma trace_ret {A} (P : event -> Prop) (a : A) : Forall P (trace_of (ret a)).
Proof. constructor. Qed.

Lemma trace_raise {A} (P : event -> Prop) (e : exn) :
  Forall P (trace_of (@raise A e)).
Proof. constructor. Qed.

Lemma trace_emit (P : event -> Prop) (ev : event) :
  P ev -> Forall P (trace_of (emit ev)).
Proof. intros H. by repeat constructor. Qed.

(** The first of the entries with the largest key heads the sorted list. *)
Lemma sort_reverse_head {A} (key : A -> Z) (l : list A) :
  l <> [] ->
  exists pre e post rest,
    l = pre ++ e :: post
    /\ Forall (fun x => (key x < key e)%Z) pre
    /\ Forall (fun x => (key x <= key e)%Z) post
    /\ sort_reverse key l = e :: rest.
Proof.
  induction l as [|x l IH]; [done|]. intros _.
  destruct l as [|y l'].
  { exists [], x, [], []. by repeat split. }
  destruct IH as (pre & e & post & rest & Hl & Hpre & Hpost & Hsort); [done|].
  change (sort_reverse key (x :: y :: l'))
    with (insert_desc key x (sort_reverse key (y :: l'))).
  rewrite Hsort. cbn [insert_desc].
  destruct (Z.ltb_spec (key x) (key e)) as [Hlt|Hge].
  - exists (x :: pre), e, post, (insert_desc key x rest).
    rewrite Hl. repeat split; [by constructor|done].
  - exists [], x, (y :: l'), (e :: rest). rewrite Hl.
    repeat split; [by constructor|].
    apply Forall_app. split.
    + eapply Forall_impl; [exact Hpre|]. simpl. intros. lia.
    + constructor; [lia|]. eapply Forall_impl; [exact Hpost|]. simpl. intros. lia.
Qed.

(** Walks a script's code and proves [P] of every event it may emit. *)
Ltac trace_walk :=
  repeat first
    [ apply trace_ret
    | apply trace_raise
    | apply trace_emit; simpl; try done
    | apply trace_bind; [|intros]
    | apply for_each_trace; intros
    | match goal with
      | |- Forall _ (trace_of (match ?x with _ => _ end)) => destruct x
      | |- Forall _ (trace_of (if ?b then _ else _)) => destruct b
      end ].

Section AggregatorProperties.

Variable json_loads : string -> option json.
Variable failure_statuses : list string.
Variable ssm : ssm_client.

Local Abbreviation inv_body' := (inv_body json_loads failure_statuses ssm).
Local Abbreviation task_body' := (task_body json_loads failure_statuses ssm).
Local Abbreviation get_patch_status_counts' :=
  (get_patch_status_counts json_loads failure_statuses ssm).

Lemma task_body_trace execution_id t st :
  Forall (fun ev => forall x, execution_of ev = Some x -> x = execution_id)
         (trace_of (task_body' execution_id t st)).
Proof.
  unfold task_body, inv_body, parse_operation, dict_get, py_in, cmd_inv_body, print.
  trace_walk. by intros x [= <-].
Qed.

(** C3. With a non-empty execution list, the aggregator works on one
    execution [e] of the list whose start time no other exceeds; the
    entries listed before [e] start strictly earlier, so that among
    several latest executions the first in input order is taken (with two
    executions T1 < T2 it is the T2 one, in either order). The tasks
    fetched are those of [e], the counts are the ones the task loop
    computes from them, and every task or task-invocation query of the
    run names [e]. *)
Theorem latest_execution_only window_id :
  startswith window_id "mw-" = true ->
  describe_maintenance_window_executions ssm window_id 10 <> [] ->
  exists pre e post,
    describe_maintenance_window_executions ssm window_id 10 = pre ++ e :: post
    /\ Forall (fun x => (StartTime x < StartTime e)%Z) pre
    /\ Forall (fun x => (StartTime x <= StartTime e)%Z) post
    /\ value_of (get_patch_status_counts' window_id)
       = value_of (for_each
                     (describe_maintenance_window_execution_tasks ssm
                        (WindowExecutionId e))
                     (task_body' (WindowExecutionId e)) (0, 0))
    /\ DescribeMaintenanceWindowExecutionTasks (WindowExecutionId e)
         ∈ trace_of (get_patch_status_counts' window_id)
    /\ Forall (fun ev => forall x, execution_of ev = Some x -> x = WindowExecutionId e)
              (trace_of (get_patch_status_counts' window_id)).
Proof.
  intros Hprefix Hne.
  destruct (sort_reverse_head StartTime _ Hne)
    as (pre & e & post & rest & Hl & Hpre & Hpost & Hsort).
  exists pre, e, post. repeat split; try done.
  all: unfold get_patch_status_counts; rewrite Hprefix; cbn [negb].
  all: destruct (describe_maintenance_window_executions ssm window_id 10)
         as [|x l] eqn:Hex; [done|].
  all: rewrite Hsort; unfold getitem; cbn [lookup list_lookup].
  - rewrite bind_ret. rewrite !value_of_bind. by cbn.
  - unfold print, emit.
    rewrite bind_ret, !bind_ok. cbn [fst snd app].
    set_solver.
  - unfold print.
    do 2 (apply trace_bind; [by trace_walk|intros _]).
    rewrite bind_ret. trace_walk; [by intros y [= <-]|].
    apply task_body_trace.
Qed.

(** C8. An invocation whose [Parameters] is a non-empty string that
    [json.loads] rejects is passed over by the invocation loop: its
    operation list is the empty list, the counters keep their values, the
    iteration ends normally, it asks for no per-host results (its only
    trace is the printed operation line), and the loop goes on with the
    invocations that follow. *)
Theorem malformed_parameters_skipped task_id inv s before after st :
  Parameters inv = Some (ParamStr s) ->
  s <> "" ->
  json_loads s = None ->
  inv_body' task_id inv st = (Ok st, [Print (MsgOperation task_id (JList []))])
  /\ for_each (before ++ inv :: after) (inv_body' task_id) st
     = bind (for_each before (inv_body' task_id) st)
         (fun st' => print (MsgOperation task_id (JList []));;;
                     for_each after (inv_body' task_id) st').
Proof.
  intros Hp Hs Hj.
  assert (inv_body' task_id inv = fun st =>
            (Ok st, [Print (MsgOperation task_id (JList []))])) as Hbody.
  { unfold inv_body, parse_operation. rewrite Hp. cbn [default from_option id].
    apply String.eqb_neq in Hs. by rewrite Hs, Hj. }
  split; [by rewrite Hbody|].
  rewrite for_each_app. apply bind_ext. intros st'.
  cbn [for_each]. by rewrite Hbody.
Qed.

(** C10. An invocation without [Parameters], with the empty string, or
    with a value that is not a string is passed over in the same way:
    empty operation list, counters unchanged, normal end of the iteration,
    no per-host query; the loop goes on with the invocations that
    follow. *)
Theorem missing_parameters_skipped task_id inv before after st :
  Parameters inv = None
  \/ Parameters inv = Some (ParamStr "")
  \/ Parameters inv = Some ParamNotStr ->
  inv_body' task_id inv st = (Ok st, [Print (MsgOperation task_id (JList []))])
  /\ for_each (before ++ inv :: after) (inv_body' task_id) st
     = bind (for_each before (inv_body' task_id) st)
         (fun st' => print (MsgOperation task_id (JList []));;;
                     for_each after (inv_body' task_id) st').
Proof.
  intros Hp.
  assert (inv_body' task_id inv = fun st =>
            (Ok st, [Print (MsgOperation task_id (JList []))])) as Hbody.
  { unfold inv_body, parse_operation. by destruct Hp as [-> | [-> | ->]]. }
  split; [by rewrite Hbody|].
  rewrite for_each_app. apply bind_ext. intros st'.
  cbn [for_each]. by rewrite Hbody.
Qed.

End AggregatorProperties.

(** ** Window scheduler filter *)

Section SchedulerProperties.

Variable fromisoformat : string -> option datetime.
Variable clock : Z.

Lemma start_of_utc_day_spec :
  (start_of_utc_day clock <= clock < start_of_utc_day clock + us_per_day)%Z.
Proof.
  unfold start_of_utc_day.
  assert (0 < us_per_day)%Z by done.
  pose proof (Z.mul_div_le clock us_per_day).
  pose proof (Z.mul_succ_div_gt clock us_per_day). lia.
Qed.

(** C6. [runs_today] answers [True] exactly for the instants of the
    half-open interval from the start of the current UTC day to 24 hours
    later: the next UTC midnight itself is refused, every instant of the
    day before it is accepted, the last representable one (a datetime has
    microsecond resolution) included. *)
Theorem runs_today_half_open next_execution_time dt :
  normalized fromisoformat next_execution_time = Some dt ->
  exists today,
    runs_today fromisoformat clock next_execution_time = (Ok today, [])
    /\ (today = true <->
        (start_of_utc_day clock <= instant dt < start_of_utc_day clock + us_per_day)%Z)
    /\ (instant dt = start_of_utc_day clock + us_per_day -> today = false)%Z
    /\ (instant dt = start_of_utc_day clock + us_per_day - 1 -> today = true)%Z
    /\ (start_of_utc_day clock <= clock < start_of_utc_day clock + us_per_day)%Z.
Proof.
  intros Hn.
  set (dt' := match tzinfo dt with
              | None => replace_tzinfo_utc dt
              | Some _ => dt
              end).
  assert (instant dt' = instant dt) as Hinst.
  { unfold dt', instant. destruct dt as [d h m s u [tz|]]; simpl; lia. }
  assert (instant (replace_midnight (datetime_now_utc clock)) = start_of_utc_day clock)
    as Hstart by (unfold instant, start_of_utc_day; simpl; lia).
  assert (instant (add_days (replace_midnight (datetime_now_utc clock)) 1)
          = (start_of_utc_day clock + us_per_day)%Z)
    as Hend by (unfold instant, start_of_utc_day; simpl; lia).
  exists ((start_of_utc_day clock <=? instant dt)%Z
          && (instant dt <? start_of_utc_day clock + us_per_day)%Z).
  split; [|split; [|split; [|split]]].
  - unfold runs_today.
    replace (match next_execution_time with
             | TimeStr s =>
                 match fromisoformat (replace s "Z" "+00:00") with
                 | Some dt => ret dt
                 | None => raise ValueError
                 end
             | TimeObj dt => ret dt
             end) with (@ret datetime dt).
    + rewrite bind_ret. fold dt'. by rewrite Hstart, Hend, Hinst.
    + destruct next_execution_time; unfold normalized in Hn;
        [by rewrite Hn|by injection Hn as ->].
  - rewrite andb_true_iff, Z.leb_le, Z.ltb_lt. done.
  - intros ->. apply andb_false_iff. right. apply Z.ltb_ge. lia.
  - intros ->. apply andb_true_iff. rewrite Z.leb_le, Z.ltb_lt.
    assert (0 < us_per_day)%Z by done. lia.
  - apply start_of_utc_day_spec.
Qed.

End SchedulerProperties.

(** ** Credential broker and session memo *)

Lemma for_each_invariant {A S} (I : S -> Prop) (l : list A)
    (body : A -> S -> M S) (s : S) :
  I s ->
  (forall x s s', I s -> value_of (body x s) = Ok s' -> I s') ->
  forall s', value_of (for_each l body s) = Ok s' -> I s'.
Proof.
  intros Hs Hbody. revert s Hs.
  induction l as [|x l IH]; intros s Hs s'; cbn [for_each].
  - by intros [= <-].
  - rewrite value_of_bind.
    destruct (value_of (body x s)) as [s1|e] eqn:Hx; [|done].
    apply IH. by eapply Hbody.
Qed.

Section HandlerProperties.

Variable sts_assume_role : string -> string -> option credentials.
Variable boto3_Session : string -> string -> string -> string -> Session.
Variable fromisoformat : string -> option datetime.
Variable clock : Z.
Variable json_loads : string -> option json.
Variable failure_statuses : list string.
Variable read_csv_local : string -> list (gmap string string).
Variable open_csv : string -> list (gmap string string).
Variable build_html_table_pre : list forecast_row -> string.
Variable build_html_table_post : list outcome_row -> string.

Local Abbreviation assume_role' := (assume_role sts_assume_role boto3_Session).
Local Abbreviation cached_assume_role' :=
  (cached_assume_role sts_assume_role boto3_Session).
Local Abbreviation row_body' :=
  (row_body sts_assume_role boto3_Session json_loads failure_statuses).
Local Abbreviation account_body' :=
  (account_body sts_assume_role boto3_Session fromisoformat clock).
Local Abbreviation lambda_handler' :=
  (lambda_handler sts_assume_role boto3_Session fromisoformat clock
     read_csv_local open_csv build_html_table_pre).

Lemma assume_role_trace account_id role_name region :
  trace_of (assume_role' account_id role_name region)
  = [StsAssumeRole (role_arn account_id role_name) "MWCheckSession"].
Proof.
  unfold assume_role, role_arn.
  by destruct (sts_assume_role _ _).
Qed.

Lemma cached_assume_role_hit account_id role_name region c :
  cache_wf c ->
  cached_key c = (Some account_id, Some role_name, Some region) ->
  exists session,
    cached_session c = Some session
    /\ cached_assume_role' account_id role_name region c = (Ok (c, session), []).
Proof.
  intros [-> | (session & a & r & g & ->)]; [done|].
  intros [= -> -> ->]. exists session. split; [done|].
  unfold cached_assume_role. cbn [cached_session cached_account_id
                                   cached_role_name cached_region].
  by rewrite !bool_decide_eq_false_2 by (by intros []).
Qed.

Lemma cached_assume_role_miss account_id role_name region c :
  cached_key c <> (Some account_id, Some role_name, Some region) ->
  cached_assume_role' account_id role_name region c
  = let* session := assume_role' account_id role_name region in
    ret ({| cached_session := Some session;
            cached_account_id := Some account_id;
            cached_role_name := Some role_name;
            cached_region := Some region |}, session).
Proof.
  intros Hkey. unfold cached_assume_role.
  destruct (cached_session c) as [s|]; [|done].
  destruct (_ || _) eqn:Hb; [done|].
  apply orb_false_iff in Hb as [Hb Hg]. apply orb_false_iff in Hb as [Ha Hr].
  apply bool_decide_eq_false in Ha, Hr, Hg.
  destruct Hkey. unfold cached_key.
  destruct (decide (Some account_id = cached_account_id c)) as [<-|]; [|done].
  destruct (decide (Some role_name = cached_role_name c)) as [<-|]; [|done].
  by destruct (decide (Some region = cached_region c)) as [<-|].
Qed.

Lemma cached_assume_role_wf account_id role_name region c c' session :
  cache_wf c ->
  value_of (cached_assume_role' account_id role_name region c) = Ok (c', session) ->
  cache_wf c'
  /\ cached_session c' = Some session
  /\ cached_key c' = (Some account_id, Some role_name, Some region).
Proof.
  intros Hwf.
  destruct (decide (cached_key c = (Some account_id, Some role_name, Some region)))
    as [Hkey|Hkey].
  - destruct (cached_assume_role_hit _ _ _ _ Hwf Hkey) as (s & Hs & ->).
    simpl. by intros [= <- <-].
  - rewrite (cached_assume_role_miss _ _ _ _ Hkey). unfold assume_role.
    destruct (sts_assume_role _ _); [|done].
    simpl. intros [= <- <-]. repeat split. right. by eauto 6.
Qed.

(** The memo of the post-run row loop is well formed at every row. *)
Lemma row_loop_cache_wf rows st :
  value_of (for_each rows row_body' ([], empty_cache)) = Ok st ->
  cache_wf st.2.
Proof.
  apply (for_each_invariant (fun st => cache_wf st.2)); [by left|].
  intros row [out c] [out' c'] Hwf. unfold row_body.
  repeat (rewrite value_of_bind;
          match goal with
          | |- context [value_of ?m] => destruct (value_of m) as [?|?] eqn:?; [|done]
          end).
  match goal with
  | H : value_of (cached_assume_role' _ _ _ _) = Ok ?cs |- _ =>
      destruct cs as [c1 session];
      apply cached_assume_role_wf in H as (Hwf1 & _); [|done]
  end.
  rewrite value_of_bind.
  destruct (value_of (get_patch_status_counts _ _ _ _))
    as [[success failure]|] eqn:?; [|done].
  rewrite value_of_bind.
  destruct (value_of (row_get row "TargetInstanceCount")); [|done].
  simpl. intros ?. by simplify_eq.
Qed.

(** C7, as the code has it. [lambda_handler] calls [assume_role] with no
    handler around it: when the call fails for an account, the handler
    ends with that exception right after the failed call. The rows
    gathered from the accounts before it are dropped with the run, the
    accounts after it are not visited, nothing is staged or mailed, and
    the handler prints nothing about the failure. *)
Theorem assume_role_failure_ends_run
    before row after account_id role_name region out t :
  read_csv_local "accounts.csv" = before ++ row :: after ->
  for_each before account_body' [] = (Ok out, t) ->
  row !! "account_id" = Some account_id ->
  row !! "role_name" = Some role_name ->
  row !! "region" = Some region ->
  sts_assume_role (role_arn account_id role_name) "MWCheckSession" = None ->
  lambda_handler'
  = (Raised (ClientError "AssumeRole"),
     t ++ [StsAssumeRole (role_arn account_id role_name) "MWCheckSession"]).
Proof.
  intros Hcsv Hbefore Ha Hr Hg Hsts.
  unfold lambda_handler. rewrite Hcsv, for_each_app, Hbefore.
  cbn [for_each bind].
  unfold account_body, row_get. rewrite Ha, Hr, Hg, !bind_ret.
  unfold assume_role. fold (role_arn account_id role_name). rewrite Hsts.
  done.
Qed.

End HandlerProperties.

(** * The deployment, evaluated *)

Section Examples.
Import Scenario.

Lemma count_status_success failure_statuses st :
  count_status failure_statuses (Some "Success") st = (st.1 + 1, st.2).
Proof. by destruct st. Qed.

(** The statuses both scripts take for failures. *)
Lemma count_status_failure s st :
  s ∈ ["Failed"; "TimedOut"; "Cancelled"; "ExecutionTimedOut"] ->
  count_status PostPatch.failure_statuses (Some s) st = (st.1, st.2 + 1)
  /\ count_status Combined.failure_statuses (Some s) st = (st.1, st.2 + 1).
Proof.
  destruct st. rewrite !elem_of_cons, elem_of_nil.
  by intros [-> | [-> | [-> | [-> | []]]]].
Qed.

(** C1, on the code. The per-host statuses [Success, Success, Failed,
    InProgress, Success] of one [Install] invocation give (3, 1) in both
    scripts, not (3, 2): [post-patch-notification.py] has no entry for
    hosts still in progress, and the entry of
    [combined_notification.py], "In Progress", is not the status text
    "InProgress", so that status moves neither counter. *)
Theorem in_progress_status_not_counted :
  value_of (PostPatch.get_patch_status_counts json_loads ssm "mw-0a1b2c3d4e5f60718")
  = Ok (3, 1)
  /\ value_of (Combined.get_patch_status_counts json_loads ssm "mw-0a1b2c3d4e5f60718")
     = Ok (3, 1)
  /\ (forall st, count_status PostPatch.failure_statuses (Some "InProgress") st = st)
  /\ (forall st, count_status Combined.failure_statuses (Some "InProgress") st = st).
Proof.
  repeat split; try (by vm_compute); by intros [].
Qed.

(** C7 as stated does not hold. With the refused account first in the
    accounts file, the run ends in the broker's exception after that one
    call: the account that follows, which alone yields one forecast row,
    is never visited and no row of it is produced. *)
Lemma assume_role_failure_not_local :
  pre_run [refused; granted]
  = (Raised (ClientError "AssumeRole"),
     [StsAssumeRole "arn:aws:iam::999999999999:role/PatchRole" "MWCheckSession"])
  /\ value_of (pre_run [granted])
     = Ok {| status := "success"; records_written := 1; result_message := None |}.
Proof. split; by vm_compute. Qed.

(** The premises of the theorems above are met on the deployment. *)

Lemma resource_group_and_tag_filter_both_count_witness :
  TargetResolver.get_target_count ssm ec2_web resourcegroups "mw-overlap"
  = (Ok 2, [DescribeMaintenanceWindowTargets "mw-overlap";
            ListGroupResources "web";
            DescribeInstances [{| filter_Name := "tag:Name";
                                  filter_Values := ["web-1"] |}]]).
Proof.
  apply (resource_group_and_tag_filter_both_count ssm ec2_web resourcegroups
           "mw-overlap" "web" "Name" ["web-1"]
           [{| Key := "resource-groups:Name"; Values := ["web"] |};
            {| Key := "tag:Name"; Values := ["web-1"] |}]
           web_instance "i-01").
  - reflexivity.
  - left. reflexivity.
  - reflexivity.
  - vm_compute. reflexivity.
Defined.

Lemma latest_execution_only_witness :
  exists pre e post,
    executions = pre ++ e :: post
    /\ Forall (fun x => (StartTime x < StartTime e)%Z) pre
    /\ Forall (fun x => (StartTime x <= StartTime e)%Z) post
    /\ value_of (get_patch_status_counts json_loads Combined.failure_statuses ssm
                   "mw-0a1b2c3d4e5f60718")
       = value_of (for_each
                     (describe_maintenance_window_execution_tasks ssm
                        (WindowExecutionId e))
                     (task_body json_loads Combined.failure_statuses ssm
                        (WindowExecutionId e)) (0, 0))
    /\ DescribeMaintenanceWindowExecutionTasks (WindowExecutionId e)
         ∈ trace_of (get_patch_status_counts json_loads Combined.failure_statuses ssm
                       "mw-0a1b2c3d4e5f60718")
    /\ Forall (fun ev => forall x, execution_of ev = Some x -> x = WindowExecutionId e)
              (trace_of (get_patch_status_counts json_loads Combined.failure_statuses
                           ssm "mw-0a1b2c3d4e5f60718")).
Proof.
  apply (latest_execution_only json_loads Combined.failure_statuses ssm
           "mw-0a1b2c3d4e5f60718").
  - reflexivity.
  - discriminate.
Defined.

Lemma explicit_ids_only_sum_witness :
  TargetResolver.get_target_count ssm ec2 resourcegroups "mw-explicit"
  = (Ok 3, [DescribeMaintenanceWindowTargets "mw-explicit"]).
Proof.
  apply (explicit_ids_only_sum ssm ec2 resourcegroups "mw-explicit").
  simpl. repeat constructor.
Defined.

Lemma tag_filter_hosts_counted_once_witness :
  let clause := {| filter_Name := "tag:PatchGroup"; filter_Values := ["prod"] |} in
  TargetResolver.resolve_tags ec2 [clause] 3
  = (Ok 5, [DescribeInstances [clause]]).
Proof.
  intros clause.
  apply (tag_filter_hosts_counted_once ec2 [clause] 3).
  discriminate.
Defined.

Lemma runs_today_half_open_witness :
  runs_today fromisoformat clock (TimeObj (at_utc 19675 23)) = (Ok true, []).
Proof.
  destruct (runs_today_half_open fromisoformat clock
              (TimeObj (at_utc 19675 23)) (at_utc 19675 23))
    as (today & Hrun & Hiff & _).
  - reflexivity.
  - rewrite Hrun. f_equal. f_equal. apply Hiff. vm_compute.
    split; [discriminate|reflexivity].
Defined.

Lemma assume_role_failure_ends_run_witness :
  pre_run [granted; refused]
  = (Raised (ClientError "AssumeRole"),
     [StsAssumeRole "arn:aws:iam::111111111111:role/PatchRole" "MWCheckSession";
      DescribeMaintenanceWindows;
      DescribeMaintenanceWindowTargets "mw-0a1b2c3d4e5f60718";
      DescribeInstances [{| filter_Name := "tag:PatchGroup";
                            filter_Values := ["prod"] |}]]
     ++ [StsAssumeRole (role_arn "999999999999" "PatchRole") "MWCheckSession"]).
Proof.
  apply (assume_role_failure_ends_run sts_assume_role boto3_Session fromisoformat
           clock (fun _ => [granted; refused]) open_csv build_html_table_pre
           [granted] refused [] "999999999999" "PatchRole" "us-east-1"
           [{| f_AccountId := "111111111111";
               f_Region := "us-east-1";
               f_RoleName := "PatchRole";
               f_MaintenanceWindowId := "mw-0a1b2c3d4e5f60718";
               f_MaintenanceWindowName := "mmpatching-weekly";
               f_TargetInstanceCount := 5 |}]).
  - reflexivity.
  - vm_compute. reflexivity.
  - vm_compute. reflexivity.
  - vm_compute. reflexivity.
  - vm_compute. reflexivity.
  - reflexivity.
Defined.

Lemma malformed_parameters_skipped_witness :
  let inv := {| Parameters := Some (ParamStr "{'parameters': oops");
                ExecutionId := Some "cmd-install" |} in
  inv_body json_loads Combined.failure_statuses ssm "task-patch" inv (3, 1)
  = (Ok (3, 1), [Print (MsgOperation "task-patch" (JList []))]).
Proof.
  intros inv.
  apply (malformed_parameters_skipped json_loads Combined.failure_statuses ssm
           "task-patch" inv "{'parameters': oops" [] [] (3, 1)).
  - reflexivity.
  - discriminate.
  - reflexivity.
Defined.

Lemma missing_parameters_skipped_witness :
  let inv := {| Parameters := None; ExecutionId := Some "cmd-install" |} in
  inv_body json_loads PostPatch.failure_statuses ssm "task-patch" inv (3, 1)
  = (Ok (3, 1), [Print (MsgOperation "task-patch" (JList []))]).
Proof.
  intros inv.
  apply (missing_parameters_skipped json_loads PostPatch.failure_statuses ssm
           "task-patch" inv [] [] (3, 1)).
  left. reflexivity.
Defined.

End Examples.

(** * Further properties *)

(** ** Status aggregator: what is counted and what stops a run *)

Lemma count_status_tally failure_statuses inst_status st :
  count_status failure_statuses inst_status st
  = (st.1 + (if is_success inst_status then 1 else 0),
     st.2 + (if is_failure failure_statuses inst_status then 1 else 0)).
Proof.
  destruct st as [s f], inst_status as [x|]; simpl; [|by rewrite !Nat.add_0_r].
  destruct (String.eqb x "Success"); simpl; [by rewrite Nat.add_0_r|].
  destruct (existsb _ _); by rewrite ?Nat.add_0_r.
Qed.

Lemma examined_app t1 t2 : examined (t1 ++ t2) = examined t1 ++ examined t2.
Proof. unfold examined. apply omap_app. Qed.

Lemma successes_app l1 l2 : successes (l1 ++ l2) = successes l1 + successes l2.
Proof. unfold successes. by rewrite List.filter_app, length_app. Qed.

Lemma failures_app fs l1 l2 : failures fs (l1 ++ l2) = failures fs l1 + failures fs l2.
Proof. unfold failures. by rewrite List.filter_app, length_app. Qed.

Section Tally.

Variable failure_statuses : list string.

(** A piece of the aggregator keeps the books: what it adds to the two
    counters is what it printed as per-host results. *)
Definition keeps_tally (m : M (nat * nat)) (st : nat * nat) : Prop :=
  forall st', value_of m = Ok st' ->
    st'.1 = st.1 + successes (examined (trace_of m))
    /\ st'.2 = st.2 + failures failure_statuses (examined (trace_of m)).

Lemma keeps_tally_ret st : keeps_tally (ret st) st.
Proof. intros st' [= <-]. cbn. lia. Qed.

Lemma keeps_tally_raise e st : keeps_tally (raise e) st.
Proof. by intros st'. Qed.

Lemma keeps_tally_bind {A} (m : M A) (k : A -> M (nat * nat)) st :
  examined (trace_of m) = [] ->
  (forall a, keeps_tally (k a) st) ->
  keeps_tally (bind m k) st.
Proof.
  intros Hm Hk st'. destruct m as [[a|e] t]; simpl in *; [|done].
  specialize (Hk a st'). destruct (k a) as [r t2]; simpl in *.
  by rewrite examined_app, Hm.
Qed.

Lemma keeps_tally_for_each {A} (l : list A) (body : A -> nat * nat -> M (nat * nat)) st :
  (forall x st, keeps_tally (body x st) st) ->
  keeps_tally (for_each l body st) st.
Proof.
  intros Hbody. revert st. induction l as [|x l IH]; intros st; cbn [for_each].
  - apply keeps_tally_ret.
  - intros st'. specialize (Hbody x st).
    destruct (body x st) as [[st1|e] t1]; simpl in *; [|done].
    specialize (IH st1 st'). destruct (for_each l body st1) as [r t2]; simpl in *.
    intros Hr. destruct (IH Hr) as [H1 H2], (Hbody st1 eq_refl) as [H3 H4].
    simpl in H3, H4. rewrite examined_app, successes_app, failures_app. lia.
Qed.

End Tally.

Lemma for_each_raises {A S} (before after : list A) (x : A)
    (body : A -> S -> M S) (s : S) (e : exn) :
  (forall s1, value_of (body x s1) = Raised e) ->
  value_of (for_each (before ++ x :: after) body s)
  = match value_of (for_each before body s) with
    | Ok _ => Raised e
    | Raised e' => Raised e'
    end.
Proof.
  intros Hx. rewrite for_each_app, value_of_bind.
  destruct (value_of (for_each before body s)) as [s1|e']; [|done].
  cbn [for_each]. by rewrite value_of_bind, Hx.
Qed.

Section AggregatorEdges.

Variable json_loads : string -> option json.
Variable failure_statuses : list string.
Variable ssm : ssm_client.

Local Abbreviation inv_body' := (inv_body json_loads failure_statuses ssm).
Local Abbreviation task_body' := (task_body json_loads failure_statuses ssm).
Local Abbreviation get_patch_status_counts' :=
  (get_patch_status_counts json_loads failure_statuses ssm).

Lemma parse_operation_silent inv : trace_of (parse_operation json_loads inv) = [].
Proof.
  unfold parse_operation, dict_get.
  destruct (default _ _) as [s|]; [|done].
  destruct (negb _); [|done].
  destruct (json_loads s) as [[| | | | | |top]|]; try done.
  by destruct (default _ _).
Qed.

Lemma getitem_silent {A} (l : list A) i : trace_of (getitem l i) = [].
Proof. unfold getitem. by destruct (l !! i). Qed.

Lemma py_in_silent s operation : trace_of (py_in s operation) = [].
Proof. by destruct operation. Qed.

(** The per-host loops of one command: every result is printed and put
    through the [if]/[elif]. *)
Lemma command_pages_tally pages st :
  for_each pages
    (fun cmd_page st => for_each cmd_page (cmd_inv_body failure_statuses) st) st
  = (Ok (st.1 + successes (Status <$> concat pages),
         st.2 + failures failure_statuses (Status <$> concat pages)),
     status_line <$> concat pages).
Proof.
  assert (forall page st,
            for_each page (cmd_inv_body failure_statuses) st
            = (Ok (st.1 + successes (Status <$> page),
                   st.2 + failures failure_statuses (Status <$> page)),
               status_line <$> page)) as Hpage.
  { clear. induction page as [|ci page IH]; intros [s f]; cbn [for_each].
    - cbn. by rewrite !Nat.add_0_r.
    - unfold cmd_inv_body at 1. cbn [bind print emit ret app].
      rewrite count_status_tally, IH. cbn [fst snd fmap list_fmap app].
      unfold successes, failures, status_line. cbn [List.filter].
      destruct (is_success (Status ci)), (is_failure failure_statuses (Status ci));
        cbn [length]; do 3 f_equal; lia. }
  revert st. induction pages as [|page pages IH]; intros [s f]; cbn [for_each].
  - cbn. by rewrite !Nat.add_0_r.
  - rewrite Hpage, bind_ok, IH. cbn [fst snd concat].
    rewrite !fmap_app, successes_app, failures_app.
    do 3 f_equal; lia.
Qed.

(** X1. A window id without the [mw-] prefix, or a window without any
    recorded execution, gives (0, 0). In the first case nothing is asked of
    the service; in the second only the list of executions. *)
Theorem zero_counts_without_execution window_id :
  (startswith window_id "mw-" = false ->
   get_patch_status_counts' window_id
   = (Ok (0, 0), [Print (MsgInvalidWindowId window_id)]))
  /\ (startswith window_id "mw-" = true ->
      describe_maintenance_window_executions ssm window_id 10 = [] ->
      get_patch_status_counts' window_id
      = (Ok (0, 0), [Print (MsgWindowId window_id);
                     DescribeMaintenanceWindowExecutions window_id 10])).
Proof.
  split.
  - intros H. unfold get_patch_status_counts. by rewrite H.
  - intros H Hex. unfold get_patch_status_counts. by rewrite H, Hex.
Qed.

(** X2. Tasks whose [TaskArn] is not [AWS-RunPatchBaseline] (or that have
    none) are passed over without a trace: the task loop does what it
    would do on the patch-baseline tasks alone. *)
Theorem only_patch_tasks_inspected execution_id tasks st :
  for_each tasks (task_body' execution_id) st
  = for_each (List.filter is_patch_task tasks) (task_body' execution_id) st.
Proof.
  revert st. induction tasks as [|t tasks IH]; intros st; [done|].
  cbn [List.filter for_each]. unfold is_patch_task at 1.
  destruct (bool_decide (TaskArn t = Some "AWS-RunPatchBaseline")) eqn:Ht.
  - cbn [for_each]. by apply bind_ext.
  - unfold task_body at 1. rewrite Ht. cbn [negb]. by rewrite bind_ret.
Qed.

(** X3. An invocation whose operation value does not hold [Install] (a
    scan, an empty or missing [Operation]) is passed over: the counters
    keep their values and no per-host results are asked for. *)
Theorem non_install_invocation_skipped task_id inv operation st :
  parse_operation json_loads inv = ret operation ->
  py_in "Install" operation = ret false ->
  inv_body' task_id inv st = (Ok st, [Print (MsgOperation task_id operation)]).
Proof.
  intros Hp Hin. unfold inv_body. rewrite Hp, bind_ret.
  unfold print, emit. rewrite bind_ok. cbn [fst snd]. by rewrite Hin.
Qed.

(** X4. An [Install] invocation without a command id ([ExecutionId]
    missing or empty) is passed over after its two printed lines: counters
    unchanged, no per-host query. *)
Theorem install_without_command_id_skipped task_id inv operation st :
  parse_operation json_loads inv = ret operation ->
  py_in "Install" operation = ret true ->
  ExecutionId inv = None \/ ExecutionId inv = Some "" ->
  inv_body' task_id inv st
  = (Ok st, [Print (MsgOperation task_id operation);
             Print (MsgInstallCommand (ExecutionId inv))]).
Proof.
  intros Hp Hin Hid. unfold inv_body. rewrite Hp, bind_ret.
  unfold print, emit. rewrite bind_ok. cbn [fst snd]. rewrite Hin, bind_ret.
  cbn [negb]. by destruct Hid as [-> | ->].
Qed.

(** X5. An [Install] invocation with a command id asks once for the
    command's per-host results and walks all their pages: the success
    counter grows by the number of results with status [Success], the
    failure counter by the number with a status of the failure tuple, each
    result counted where it stands (no grouping by host), and one line is
    printed per result. *)
Theorem install_invocation_tally task_id inv operation command_id st :
  parse_operation json_loads inv = ret operation ->
  py_in "Install" operation = ret true ->
  ExecutionId inv = Some command_id ->
  command_id <> "" ->
  let results := concat (list_command_invocations ssm command_id) in
  inv_body' task_id inv st
  = (Ok (st.1 + successes (Status <$> results),
         st.2 + failures failure_statuses (Status <$> results)),
     [Print (MsgOperation task_id operation);
      Print (MsgInstallCommand (Some command_id));
      ListCommandInvocations command_id] ++ (status_line <$> results)).
Proof.
  intros Hp Hin Hid Hne results. unfold inv_body. rewrite Hp, bind_ret.
  unfold print, emit. rewrite bind_ok. cbn [fst snd]. rewrite Hin, bind_ret.
  cbn [negb]. rewrite Hid. apply String.eqb_neq in Hne. rewrite Hne.
  by rewrite !bind_ok, command_pages_tally.
Qed.

Lemma cmd_inv_body_keeps_tally cmd_inv st :
  keeps_tally failure_statuses (cmd_inv_body failure_statuses cmd_inv st) st.
Proof.
  intros st' [= <-]. rewrite count_status_tally. cbn.
  unfold successes, failures. cbn [List.filter].
  destruct (is_success _), (is_failure _ _); cbn; lia.
Qed.

Ltac tally_walk :=
  repeat first
    [ apply cmd_inv_body_keeps_tally
    | apply keeps_tally_ret
    | apply keeps_tally_raise
    | apply keeps_tally_for_each; intros
    | apply keeps_tally_bind;
        [first [reflexivity | by rewrite parse_operation_silent
               | by rewrite py_in_silent | by rewrite getitem_silent]
        |intros]
    | match goal with
      | |- keeps_tally _ (match ?x with _ => _ end) _ => destruct x
      | |- keeps_tally _ (if ?b then _ else _) _ => destruct b
      end ].

(** X6. Whatever the service returns, the counts a run hands back are the
    books of what it examined: the success count is the number of per-host
    results with status [Success] it printed, the failure count the number
    with a status of the failure tuple. A run that examined no per-host
    result returns (0, 0). *)
Theorem counts_match_examined window_id counts :
  value_of (get_patch_status_counts' window_id) = Ok counts ->
  let statuses := examined (trace_of (get_patch_status_counts' window_id)) in
  counts = (successes statuses, failures failure_statuses statuses)
  /\ (statuses = [] -> counts = (0, 0)).
Proof.
  intros Hv statuses.
  assert (keeps_tally failure_statuses (get_patch_status_counts' window_id) (0, 0))
    as Hk.
  { unfold get_patch_status_counts, task_body, inv_body, print.
    tally_walk. }
  destruct (Hk counts Hv) as [H1 H2]. fold statuses in H1, H2.
  destruct counts as [s f]. simpl in *. split.
  - by rewrite H1, H2.
  - intros Hs. rewrite Hs in H1, H2. by rewrite H1, H2.
Qed.

(** X7. A payload that is JSON but not an object, or whose [parameters]
    entry is not an object, is not covered by the [except] clause: the
    invocation raises [AttributeError] before anything is printed, and the
    loop over its page ends with that exception once it gets there. *)
Theorem non_object_payload_raises task_id inv s parsed before after st :
  Parameters inv = Some (ParamStr s) ->
  s <> "" ->
  json_loads s = Some parsed ->
  is_dict parsed = false
  \/ (exists top p, parsed = JDict top /\ assoc "parameters" top = Some p
                    /\ is_dict p = false) ->
  inv_body' task_id inv st = (Raised AttributeError, [])
  /\ value_of (for_each (before ++ inv :: after) (inv_body' task_id) st)
     = match value_of (for_each before (inv_body' task_id) st) with
       | Ok _ => Raised AttributeError
       | Raised e => Raised e
       end.
Proof.
  intros Hp Hs Hj Hshape.
  assert (forall st, inv_body' task_id inv st = (Raised AttributeError, [])) as Hbody.
  { intros st1. unfold inv_body, parse_operation. rewrite Hp.
    cbn [default from_option id]. apply String.eqb_neq in Hs. rewrite Hs, Hj.
    cbn [negb]. destruct Hshape as [Hd | (top & p & -> & Ha & Hd)].
    - by destruct parsed.
    - unfold dict_get. rewrite Ha. cbn [default from_option id].
      rewrite bind_ret. by destruct p. }
  split; [apply Hbody|].
  apply for_each_raises. intros st1. by rewrite Hbody.
Qed.

(** X8. An [Operation] that is null, a boolean or a number cannot be
    searched: the invocation raises [TypeError] right after its operation
    line, and so does the loop over its page once it gets there. *)
Theorem non_iterable_operation_raises task_id inv operation before after st :
  parse_operation json_loads inv = ret operation ->
  not_iterable operation = true ->
  inv_body' task_id inv st
  = (Raised TypeError, [Print (MsgOperation task_id operation)])
  /\ value_of (for_each (before ++ inv :: after) (inv_body' task_id) st)
     = match value_of (for_each before (inv_body' task_id) st) with
       | Ok _ => Raised TypeError
       | Raised e => Raised e
       end.
Proof.
  intros Hp Hop.
  assert (forall st, inv_body' task_id inv st
                     = (Raised TypeError, [Print (MsgOperation task_id operation)]))
    as Hbody.
  { intros st1. unfold inv_body. rewrite Hp, bind_ret.
    by destruct operation. }
  split; [apply Hbody|].
  apply for_each_raises. intros st1. by rewrite Hbody.
Qed.

End AggregatorEdges.

(** ** Target resolver: the calls it makes *)

Lemma trace_of_bind {A B} (m : M A) (k : A -> M B) :
  trace_of (bind m k)
  = trace_of m ++ match value_of m with
                  | Ok a => trace_of (k a)
                  | Raised _ => []
                  end.
Proof.
  destruct m as [[a|e] t]; simpl; [|by rewrite app_nil_r]. by destruct (k a).
Qed.


Lemma split_without_separator sep s cur :
  str_contains sep s = false ->
  split_from sep s 0 cur = [String.rev_app cur s].
Proof.
  revert cur. induction s as [|c s IH]; intros cur Hs; [done|].
  cbn [str_contains] in Hs. apply orb_false_iff in Hs as [Hp Hs].
  cbn [split_from]. rewrite Hp. by rewrite IH.
Qed.

Section TargetResolverCalls.
Import TargetResolver.

Variables (ssm : ssm_client) (ec2 : ec2_client)
          (resourcegroups : resourcegroups_client).





(** X10. For a tag rule whose tag name does not itself contain [tag:],
    the clause handed to the host listing carries the rule's key and
    values as they are: splitting the key and putting [tag:] back in front
    gives the key again. *)
Theorem tag_clause_keeps_rule_key tag_key values total tag_filters :
  str_contains "tag:" tag_key = false ->
  let r := {| Key := "tag:" +:+ tag_key; Values := values |} in
  rule_body resourcegroups r (total, tag_filters)
  = ret (total, tag_filters ++ [{| filter_Name := Key r; filter_Values := Values r |}]).
Proof.
  intros Hk r. unfold r. rewrite rule_body_tag. cbn [Key Values].
  unfold split. by rewrite (split_without_separator _ _ _ Hk).
Qed.

End TargetResolverCalls.

(** ** Pre-run handler: which windows become rows *)

Section PreRun.

Variable sts_assume_role : string -> string -> option credentials.
Variable boto3_Session : string -> string -> string -> string -> Session.
Variable fromisoformat : string -> option datetime.
Variable clock : Z.
Variable read_csv_local : string -> list (gmap string string).
Variable open_csv : string -> list (gmap string string).
Variable build_html_table_pre : list forecast_row -> string.

Local Abbreviation window_body' :=
  (window_body fromisoformat clock).
Local Abbreviation account_body' :=
  (account_body sts_assume_role boto3_Session fromisoformat clock).
Local Abbreviation lambda_handler' :=
  (lambda_handler sts_assume_role boto3_Session fromisoformat clock
     read_csv_local open_csv build_html_table_pre).
Local Abbreviation in_scope' := (in_scope fromisoformat clock).
Local Abbreviation readable' := (readable fromisoformat).
Local Abbreviation account_ok' :=
  (account_ok sts_assume_role boto3_Session fromisoformat).
Local Abbreviation account_rows' :=
  (account_rows sts_assume_role boto3_Session fromisoformat clock).

Lemma runs_today_value next_execution_time :
  value_of (runs_today fromisoformat clock next_execution_time)
  = match normalized fromisoformat next_execution_time with
    | Some _ => Ok (falls_today fromisoformat clock next_execution_time)
    | None => Raised ValueError
    end.
Proof.
  unfold runs_today, falls_today, normalized.
  assert (forall dt,
            instant (match tzinfo dt with
                     | None => replace_tzinfo_utc dt
                     | Some _ => dt
                     end) = instant dt) as Hinst.
  { intros [d h m s u [tz|]]; unfold instant; simpl; lia. }
  assert (instant (replace_midnight (datetime_now_utc clock)) = start_of_utc_day clock)
    as Hstart by (unfold instant, start_of_utc_day; simpl; lia).
  assert (instant (add_days (replace_midnight (datetime_now_utc clock)) 1)
          = (start_of_utc_day clock + us_per_day)%Z)
    as Hend by (unfold instant, start_of_utc_day; simpl; lia).
  destruct next_execution_time as [s|dt].
  - destruct (fromisoformat _) as [dt|]; [|done].
    rewrite bind_ret. cbn [value_of ret fst]. by rewrite Hstart, Hend, Hinst.
  - rewrite bind_ret. cbn [value_of ret fst]. by rewrite Hstart, Hend, Hinst.
Qed.

Lemma window_body_value account_id role_name region session mw rows :
  readable' mw ->
  value_of (window_body' account_id role_name region session mw rows)
  = Ok (if in_scope' mw
        then rows ++ [forecast_of account_id role_name region session mw]
        else rows).
Proof.
  intros Hread. unfold window_body, in_scope, readable in *.
  destruct (NextExecutionTime mw) as [net|]; [|done].
  destruct (startswith (default "" (Name mw)) "mmpatching") eqn:Hname; [|done].
  destruct (Hread net eq_refl eq_refl) as [dt Hdt].
  cbn [negb andb]. rewrite value_of_bind, runs_today_value, Hdt.
  destruct (falls_today fromisoformat clock net); [|done].
  rewrite value_of_bind, get_target_count_value. unfold forecast_of.
  destruct (Name mw) as [n|]; [by rewrite value_of_bind|].
  by rewrite (String.prefix_correct "mmpatching" "") in Hname.
Qed.

Lemma window_loop_value account_id role_name region session windows rows :
  Forall readable' windows ->
  value_of (for_each windows (window_body' account_id role_name region session) rows)
  = Ok (rows ++ (forecast_of account_id role_name region session
                 <$> List.filter in_scope' windows)).
Proof.
  intros Hread. revert rows.
  induction Hread as [|mw windows Hmw _ IH]; intros rows; cbn [for_each List.filter].
  - by rewrite app_nil_r.
  - rewrite value_of_bind, (window_body_value _ _ _ _ _ _ Hmw).
    destruct (in_scope' mw); rewrite IH; [|done].
    by rewrite <- app_assoc.
Qed.

Lemma omap_none {A B} (f : A -> option B) (l : list A) :
  Forall (fun x => f x = None) l -> omap f l = [].
Proof. induction 1 as [|x l Hx _ IH]; [done|]. cbn. by rewrite Hx. Qed.

Lemma omap_hit {A B} (f : A -> option B) (x : A) (y : B) (l : list A) :
  f x = Some y -> omap f (x :: l) = y :: omap f l.
Proof. intros Hx. cbn. by rewrite Hx. Qed.

Lemma target_loop_no_target_query ec2 resourcegroups targets total :
  Forall (fun ev => target_query_of ev = None)
         (trace_of (for_each targets
                      (TargetResolver.target_body ec2 resourcegroups) total)).
Proof.
  unfold TargetResolver.target_body, TargetResolver.rule_body,
    TargetResolver.resolve_group, TargetResolver.resolve_tags, getitem, print.
  trace_walk.
Qed.

Lemma runs_today_silent next_execution_time :
  trace_of (runs_today fromisoformat clock next_execution_time) = [].
Proof.
  unfold runs_today. destruct next_execution_time as [s|dt]; [|done].
  by destruct (fromisoformat _).
Qed.

Lemma window_body_target_query account_id role_name region session mw rows :
  readable' mw ->
  omap target_query_of
    (trace_of (window_body' account_id role_name region session mw rows))
  = if in_scope' mw then [WindowId mw] else [].
Proof.
  intros Hread. unfold window_body, in_scope, readable in *.
  destruct (NextExecutionTime mw) as [net|]; [|done].
  destruct (startswith (default "" (Name mw)) "mmpatching") eqn:Hname; [|done].
  destruct (Hread net eq_refl eq_refl) as [dt Hdt].
  cbn [negb andb].
  rewrite trace_of_bind, runs_today_silent, runs_today_value, Hdt. cbn [app].
  destruct (falls_today fromisoformat clock net); [|done].
  rewrite trace_of_bind, get_target_count_value.
  unfold TargetResolver.get_target_count at 1.
  rewrite trace_of_bind. cbn [emit trace_of value_of fst snd app].
  rewrite (omap_hit _ _ (WindowId mw)) by done.
  rewrite omap_app, (omap_none _ _ (target_loop_no_target_query _ _ _ _)).
  by destruct (Name mw).
Qed.

(** X11. The window loop of the pre-run keeps the windows that have a
    next execution time, a name starting with [mmpatching] (as written,
    case and all) and a next execution within the current UTC day; it
    appends one forecast row for each, in listing order, with the count
    the target resolver gives, and passes the others over: the windows
    whose targets it asks for are the kept ones and no other. *)
Theorem window_loop_rows account_id role_name region session windows rows :
  Forall readable' windows ->
  let loop :=
    for_each windows (window_body' account_id role_name region session) rows in
  value_of loop
  = Ok (rows ++ (forecast_of account_id role_name region session
                 <$> List.filter in_scope' windows))
  /\ omap target_query_of (trace_of loop)
     = WindowId <$> List.filter in_scope' windows.
Proof.
  intros Hread loop. split; [by apply window_loop_value|]. subst loop.
  revert rows.
  induction Hread as [|mw windows Hmw _ IH]; intros rows; cbn [for_each List.filter].
  - done.
  - rewrite trace_of_bind, omap_app, (window_body_target_query _ _ _ _ _ _ Hmw).
    rewrite (window_body_value _ _ _ _ _ _ Hmw), IH.
    by destruct (in_scope' mw).
Qed.

Lemma assume_role_value account_id role_name region :
  value_of (assume_role sts_assume_role boto3_Session account_id role_name region)
  = match sts_assume_role (role_arn account_id role_name) "MWCheckSession" with
    | Some creds =>
        Ok (boto3_Session (AccessKeyId creds) (SecretAccessKey creds)
              (SessionToken creds) region)
    | None => Raised (ClientError "AssumeRole")
    end.
Proof. unfold assume_role, role_arn. by destruct (sts_assume_role _ _). Qed.

Lemma account_body_value row rows :
  account_ok' row ->
  value_of (account_body' row rows) = Ok (rows ++ account_rows' row).
Proof.
  intros (session & Hs & Hread). unfold account_rows. rewrite Hs.
  unfold account_session in Hs. unfold account_body, row_get.
  destruct (row !! "account_id") as [a|]; [|done].
  destruct (row !! "role_name") as [r|]; [|done].
  destruct (row !! "region") as [g|]; [|done].
  cbn [mbind option_bind] in Hs.
  destruct (sts_assume_role (role_arn a r) "MWCheckSession") as [creds|] eqn:Hsts;
    [|done].
  injection Hs as Hs.
  rewrite !bind_ret, value_of_bind, assume_role_value, Hsts, Hs, value_of_bind.
  cbn [value_of emit fst default from_option id].
  by apply window_loop_value.
Qed.

Lemma account_loop_value accounts rows :
  Forall account_ok' accounts ->
  value_of (for_each accounts account_body' rows)
  = Ok (rows ++ concat (account_rows' <$> accounts)).
Proof.
  intros Hok. revert rows.
  induction Hok as [|row accounts Hrow _ IH]; intros rows; cbn [for_each].
  - by rewrite app_nil_r.
  - rewrite value_of_bind, (account_body_value _ _ Hrow), IH. cbn.
    by rewrite <- app_assoc.
Qed.

Lemma account_loop_no_delivery accounts rows :
  Forall (fun ev => is_delivery ev = false)
         (trace_of (for_each accounts account_body' rows)).
Proof.
  unfold account_body, window_body, runs_today, assume_role, row_get, print,
    TargetResolver.get_target_count, TargetResolver.target_body,
    TargetResolver.rule_body, TargetResolver.resolve_group,
    TargetResolver.resolve_tags, getitem.
  trace_walk.
Qed.

(** X12. When no window of any account is in scope, [lambda_handler]
    ends as a success with no records: it prints one line, and neither
    assumes the mail account's role, nor writes to the staging bucket, nor
    sends mail. *)
Theorem no_window_in_scope_is_a_no_op :
  Forall account_ok' (read_csv_local "accounts.csv") ->
  concat (account_rows' <$> read_csv_local "accounts.csv") = [] ->
  lambda_handler'
  = (Ok {| status := "success"; records_written := 0;
           result_message := Some "No MWs found, notification skipped" |},
     trace_of (for_each (read_csv_local "accounts.csv") account_body' [])
     ++ [Print MsgNoWindowsToday])
  /\ Forall (fun ev => is_delivery ev = false) (trace_of lambda_handler').
Proof.
  intros Hok Hrows.
  pose proof (account_loop_value _ [] Hok) as Hv. rewrite Hrows in Hv.
  pose proof (account_loop_no_delivery (read_csv_local "accounts.csv") []) as Ht.
  unfold lambda_handler.
  destruct (for_each (read_csv_local "accounts.csv") account_body' [])
    as [r t]. cbn in Hv, Ht. subst r. cbn. split; [done|].
  apply Forall_app. split; [done|]. by repeat constructor.
Qed.

(** X13. When some window is in scope and the mail account's role can be
    assumed, [lambda_handler] reports as many records as there are
    in-scope windows over all accounts, and ends with exactly three steps:
    the role assumption, one staging write carrying that many records,
    and one mail with the rendered table. *)
Theorem in_scope_windows_are_staged_and_mailed email rest account_id role_name region creds :
  Forall account_ok' (read_csv_local "accounts.csv") ->
  let rows := concat (account_rows' <$> read_csv_local "accounts.csv") in
  rows <> [] ->
  open_csv "email_account.csv" = email :: rest ->
  email !! "account_id" = Some account_id ->
  email !! "role_name" = Some role_name ->
  email !! "region" = Some region ->
  sts_assume_role (role_arn account_id role_name) "MWCheckSession" = Some creds ->
  lambda_handler'
  = (Ok {| status := "success"; records_written := length rows;
           result_message := None |},
     trace_of (for_each (read_csv_local "accounts.csv") account_body' [])
     ++ [StsAssumeRole (role_arn account_id role_name) "MWCheckSession";
         S3PutObject "mmpatching-custom-patchbaseline-dev"
           "pre_patch_notification/mw-running-today-output.csv" (length rows);
         SesSendEmail "Maintenance Windows Running Today"
           (build_html_table_pre rows)]).
Proof.
  intros Hok rows Hne Hcsv Ha Hr Hg Hsts.
  pose proof (account_loop_value _ [] Hok) as Hv. fold rows in Hv. cbn in Hv.
  unfold lambda_handler.
  destruct (for_each (read_csv_local "accounts.csv") account_body' [])
    as [r t]. cbn in Hv. subst r. cbn [bind trace_of snd].
  destruct rows as [|row rows']; [done|].
  unfold load_shared_account, row_get, assume_role. rewrite Hcsv, Ha, Hr, Hg.
  rewrite !bind_ret. fold (role_arn account_id role_name). rewrite Hsts.
  cbn. done.
Qed.

End PreRun.

(** ** Post-run function: rows, sessions, and the empty staging file *)

Section PostRun.

Variable sts_assume_role : string -> string -> option credentials.
Variable boto3_Session : string -> string -> string -> string -> Session.
Variable json_loads : string -> option json.
Variable failure_statuses : list string.
Variable open_csv : string -> list (gmap string string).
Variable build_html_table_post : list outcome_row -> string.

Local Abbreviation assume_role' := (assume_role sts_assume_role boto3_Session).
Local Abbreviation cached_assume_role' :=
  (cached_assume_role sts_assume_role boto3_Session).
Local Abbreviation row_body' :=
  (row_body sts_assume_role boto3_Session json_loads failure_statuses).
Local Abbreviation post_patch_function' :=
  (post_patch_function sts_assume_role boto3_Session json_loads failure_statuses
     open_csv build_html_table_post).

Lemma get_patch_status_counts_no_assume_role ssm window_id :
  Forall (fun ev => is_assume_role ev = false)
         (trace_of (get_patch_status_counts json_loads failure_statuses ssm window_id)).
Proof.
  unfold get_patch_status_counts, task_body, inv_body, parse_operation, dict_get,
    py_in, cmd_inv_body, getitem, print.
  trace_walk.
Qed.

Lemma filter_none {A} (f : A -> bool) (l : list A) :
  Forall (fun x => f x = false) l -> List.filter f l = [].
Proof. induction 1 as [|x l Hx _ IH]; [done|]. cbn. by rewrite Hx. Qed.

(** What one iteration of the row loop leaves behind. *)
Lemma row_body_step row out c out' c' :
  cache_wf c ->
  value_of (row_body' row (out, c)) = Ok (out', c') ->
  (exists o, out' = out ++ [o] /\ carried row o)
  /\ cache_wf c'
  /\ cached_key c' = row_key row
  /\ length (List.filter is_assume_role (trace_of (row_body' row (out, c))))
     = if decide (cached_key c = row_key row) then 0 else 1.
Proof.
  intros Hwf. unfold row_body, row_get, row_key.
  destruct (row !! "AccountId") as [a|] eqn:Ha; [|done].
  destruct (row !! "RoleName") as [r|] eqn:Hr; [|done].
  destruct (row !! "Region") as [g|] eqn:Hg; [|done].
  destruct (row !! "MaintenanceWindowId") as [w|] eqn:Hw; [|done].
  destruct (row !! "MaintenanceWindowName") as [n|] eqn:Hn; [|done].
  rewrite !bind_ret, value_of_bind, trace_of_bind.
  destruct (value_of (cached_assume_role' a r g c)) as [[c1 session]|] eqn:Hc; [|done].
  destruct (cached_assume_role_wf _ _ _ _ _ _ _ _ Hwf Hc) as (Hwf1 & _ & Hkey1).
  rewrite value_of_bind, trace_of_bind.
  pose proof (get_patch_status_counts_no_assume_role (client_ssm session) w) as Hq.
  destruct (get_patch_status_counts json_loads failure_statuses (client_ssm session) w)
    as [[[success failure]|e] tq]; [|done].
  cbn [value_of trace_of fst snd] in Hq |- *.
  destruct (row !! "TargetInstanceCount") as [tc|] eqn:Htc; [|done].
  rewrite bind_ret. cbn [value_of trace_of ret fst snd]. intros [= <- <-].
  split; [|split; [done|split; [done|]]].
  { eexists. split; [done|]. by unfold carried. }
  rewrite app_nil_r, List.filter_app, (filter_none _ _ Hq), app_nil_r.
  destruct (decide (cached_key c = (Some a, Some r, Some g))) as [Hkey|Hkey].
  - destruct (cached_assume_role_hit sts_assume_role boto3_Session _ _ _ _ Hwf Hkey)
      as (s & _ & ->). done.
  - rewrite (cached_assume_role_miss sts_assume_role boto3_Session _ _ _ _ Hkey).
    rewrite trace_of_bind, assume_role_trace.
    by destruct (value_of (assume_role' a r g)).
Qed.

Lemma row_loop_steps rows out c out' c' :
  cache_wf c ->
  value_of (for_each rows row_body' (out, c)) = Ok (out', c') ->
  (exists new, out' = out ++ new /\ Forall2 carried rows new)
  /\ length (List.filter is_assume_role (trace_of (for_each rows row_body' (out, c))))
     = key_changes (cached_key c) rows.
Proof.
  revert out c. induction rows as [|row rows IH]; intros out c Hwf; cbn [for_each].
  - intros [= <- <-]. split; [|done]. exists []. by rewrite app_nil_r.
  - rewrite value_of_bind, trace_of_bind.
    destruct (value_of (row_body' row (out, c))) as [[out1 c1]|] eqn:Hrow; [|done].
    destruct (row_body_step _ _ _ _ _ Hwf Hrow) as ((o & -> & Ho) & Hwf1 & Hkey1 & Hn).
    intros Hrest. destruct (IH _ _ Hwf1 Hrest) as ((new & -> & Hnew) & Hm).
    split.
    + exists (o :: new). rewrite <- app_assoc. split; [done|]. by constructor.
    + rewrite List.filter_app, length_app, Hn, Hm. cbn [key_changes].
      by rewrite Hkey1.
Qed.

(** The memo a row of the loop meets. *)
Lemma row_loop_memo rows out c out' c' :
  cache_wf c ->
  value_of (for_each rows row_body' (out, c)) = Ok (out', c') ->
  cache_wf c'
  /\ cached_key c' = from_option row_key (cached_key c) (last rows).
Proof.
  revert out c. induction rows as [|row rows IH]; intros out c Hwf; cbn [for_each].
  - by intros [= <- <-].
  - rewrite value_of_bind.
    destruct (value_of (row_body' row (out, c))) as [[out1 c1]|] eqn:Hrow; [|done].
    destruct (row_body_step _ _ _ _ _ Hwf Hrow) as (_ & Hwf1 & Hkey1 & _).
    intros Hrest. destruct (IH _ _ Hwf1 Hrest) as (Hwf' & Hkey').
    split; [done|]. rewrite Hkey', Hkey1, last_cons.
    by destruct (last rows).
Qed.

(** What a row does once its session is settled. *)
Lemma row_body_with_session row a r g w n out c c1 session t :
  row !! "AccountId" = Some a ->
  row !! "RoleName" = Some r ->
  row !! "Region" = Some g ->
  row !! "MaintenanceWindowId" = Some w ->
  row !! "MaintenanceWindowName" = Some n ->
  cached_assume_role' a r g c = (Ok (c1, session), t) ->
  let counts :=
    get_patch_status_counts json_loads failure_statuses (client_ssm session) w in
  trace_of (row_body' row (out, c)) = t ++ trace_of counts
  /\ forall out' c',
       value_of (row_body' row (out, c)) = Ok (out', c') ->
       c' = c1
       /\ exists o,
            out' = out ++ [o]
            /\ carried row o
            /\ value_of counts = Ok (o_Success o, o_Failure o).
Proof.
  intros Ha Hr Hg Hw Hn Hc counts. subst counts.
  unfold row_body, row_get. rewrite Ha, Hr, Hg, Hw, Hn, !bind_ret, Hc.
  cbn [bind fst snd].
  destruct (get_patch_status_counts json_loads failure_statuses (client_ssm session) w)
    as [[[success failure]|e] tq]; cbn [bind fst snd trace_of value_of].
  - destruct (row !! "TargetInstanceCount") as [tc|] eqn:Htc;
      cbn [bind ret raise fst snd]; rewrite ?app_nil_r; (split; [done|]).
    + intros out' c' [= <- <-]. split; [done|]. eexists.
      split; [done|]. split; [by unfold carried|done].
    + done.
  - split; [done|]. done.
Qed.

(** C9. In the post-run row loop a row is reached with the memo the rows
    before it left: the identity (account, role, region) of the row just
    before, and nothing before the first row. A row whose identity is the
    memo's works with the memo's session: no [assume_role] call is made in
    the row, its status query goes through that session, and the memo is
    left as it is. A row with another identity, and the first row, makes
    exactly one [assume_role] call, before anything else; when the call
    fails the row ends there, and when it gives a session the status query
    of the row goes through the new session and the memo from then on
    holds it under the row's identity. *)
Theorem session_memo_single_slot
    before row after account_id role_name region window_id window_name out c t :
  for_each before row_body' ([], empty_cache) = (Ok (out, c), t) ->
  row !! "AccountId" = Some account_id ->
  row !! "RoleName" = Some role_name ->
  row !! "Region" = Some region ->
  row !! "MaintenanceWindowId" = Some window_id ->
  row !! "MaintenanceWindowName" = Some window_name ->
  let this_row := row_body' row (out, c) in
  let counts_with session :=
    get_patch_status_counts json_loads failure_statuses
      (client_ssm session) window_id in
  let call := StsAssumeRole (role_arn account_id role_name) "MWCheckSession" in
  for_each (before ++ row :: after) row_body' ([], empty_cache)
  = (let* st := (value_of this_row, t ++ trace_of this_row) in
     for_each after row_body' st)
  /\ cached_key c = last_key before
  /\ (before = [] -> cached_key c <> row_key row)
  /\ (cached_key c = row_key row ->
      exists session,
        cached_session c = Some session
        /\ trace_of this_row = trace_of (counts_with session)
        /\ List.filter is_assume_role (trace_of this_row) = []
        /\ forall out' c',
             value_of this_row = Ok (out', c') ->
             c' = c
             /\ exists o,
                  out' = out ++ [o]
                  /\ carried row o
                  /\ value_of (counts_with session) = Ok (o_Success o, o_Failure o))
  /\ (cached_key c <> row_key row ->
      List.filter is_assume_role (trace_of this_row) = [call]
      /\ match value_of (assume_role' account_id role_name region) with
         | Raised e => this_row = (Raised e, [call])
         | Ok session =>
             trace_of this_row = call :: trace_of (counts_with session)
             /\ forall out' c',
                  value_of this_row = Ok (out', c') ->
                  c' = {| cached_session := Some session;
                          cached_account_id := Some account_id;
                          cached_role_name := Some role_name;
                          cached_region := Some region |}
                  /\ exists o,
                       out' = out ++ [o]
                       /\ carried row o
                       /\ value_of (counts_with session)
                          = Ok (o_Success o, o_Failure o)
         end).
Proof.
  intros Hloop Ha Hr Hg Hw Hn this_row counts_with call.
  assert (cache_wf c /\ cached_key c = last_key before) as [Hwf Hlast].
  { apply (row_loop_memo before [] empty_cache out c); [by left|].
    by rewrite Hloop. }
  assert (row_key row = (Some account_id, Some role_name, Some region)) as Hrow.
  { unfold row_key. by rewrite Ha, Hr, Hg. }
  split; [|split; [done|split]].
  { rewrite for_each_app, Hloop. cbn [for_each bind fst snd].
    subst this_row. destruct (row_body' row (out, c)) as [[st|e] tr];
      cbn [bind fst snd value_of trace_of]; [|done].
    destruct (for_each after row_body' st) as [v ta]. cbn [fst snd].
    by rewrite app_assoc. }
  { intros ->. by rewrite Hlast, Hrow. }
  rewrite Hrow. split.
  - intros Hkey.
    destruct (cached_assume_role_hit sts_assume_role boto3_Session _ _ _ _ Hwf Hkey)
      as (session & Hs & Hhit).
    destruct (row_body_with_session row _ _ _ _ _ out c _ _ _ Ha Hr Hg Hw Hn Hhit)
      as (Ht & Hv).
    exists session. subst this_row counts_with. cbn [app] in Ht.
    split; [done|]. split; [done|]. split; [|done].
    rewrite Ht. apply filter_none, get_patch_status_counts_no_assume_role.
  - intros Hkey.
    pose proof (cached_assume_role_miss sts_assume_role boto3_Session
                  _ _ _ _ Hkey) as Hmiss.
    pose proof (assume_role_trace sts_assume_role boto3_Session
                  account_id role_name region) as Hcall.
    fold call in Hcall.
    destruct (assume_role' account_id role_name region) as [[session|e] ta] eqn:Has;
      cbn [trace_of value_of fst snd] in Hcall |- *; subst ta.
    + cbn [bind ret fst snd app] in Hmiss.
      destruct (row_body_with_session row _ _ _ _ _ out c _ _ _ Ha Hr Hg Hw Hn Hmiss)
        as (Ht & Hv).
      subst this_row counts_with. cbn [app] in Ht.
      split; [|by split].
      rewrite Ht. cbn [List.filter is_assume_role call]. f_equal.
      apply filter_none, get_patch_status_counts_no_assume_role.
    + cbn [bind fst snd] in Hmiss.
      assert (this_row = (Raised e, [call])) as Hthis.
      { subst this_row. unfold row_body, row_get.
        by rewrite Ha, Hr, Hg, Hw, Hn, !bind_ret, Hmiss. }
      by rewrite Hthis.
Qed.

(** X14. When the staging file has no rows, [post_patch_function] prints
    its notice and then reaches [sys.exit(0)] in a script that never imports
    [sys]: the run ends with [NameError], having assumed the shared role
    and read the file, and nothing is staged or mailed. *)
Theorem empty_staging_file_ends_in_name_error
    shared rest account_id role_name region creds :
  open_csv "email_account.csv" = shared :: rest ->
  shared !! "account_id" = Some account_id ->
  shared !! "role_name" = Some role_name ->
  shared !! "region" = Some region ->
  sts_assume_role (role_arn account_id role_name) "MWCheckSession" = Some creds ->
  get_object_rows
    (client_s3 (boto3_Session (AccessKeyId creds) (SecretAccessKey creds)
                  (SessionToken creds) region))
    "mmpatching-custom-patchbaseline-dev"
    "pre_patch_notification/mw-running-today-output.csv" = [] ->
  post_patch_function'
  = (Raised (NameError "sys"),
     [StsAssumeRole (role_arn account_id role_name) "MWCheckSession";
      S3GetObject "mmpatching-custom-patchbaseline-dev"
        "pre_patch_notification/mw-running-today-output.csv";
      Print MsgNoWindowsScheduled]).
Proof.
  intros Hcsv Ha Hr Hg Hsts Hrows.
  unfold post_patch_function, load_shared_account, row_get, assume_role,
    read_csv_from_s3.
  rewrite Hcsv, Ha, Hr, Hg, !bind_ret. fold (role_arn account_id role_name).
  rewrite Hsts. cbn [bind emit ret app fst snd].
  unfold INPUT_BUCKET, PRE_PATCH_KEY. by rewrite Hrows.
Qed.

(** X15. A row loop that comes to its end has appended one outcome row
    per staged row, in order, each with the account, region, role, window
    id, window name and target count of its staged row as they were read
    (the target count is passed on as text). *)
Theorem outcome_rows_carry_staged_rows rows out c out' c' :
  cache_wf c ->
  value_of (for_each rows row_body' (out, c)) = Ok (out', c') ->
  exists new,
    out' = out ++ new /\ Forall2 carried rows new /\ length new = length rows.
Proof.
  intros Hwf Hv.
  destruct (row_loop_steps _ _ _ _ _ Hwf Hv) as ((new & -> & Hnew) & _).
  exists new. repeat split; [done|]. symmetry. by eapply Forall2_length.
Qed.

(** X16. Over a row loop that comes to its end, [assume_role] is called
    once for every row whose (account, role, region) differs from that of
    the row before it, the first row included: rows of one identity that
    follow each other share a session, and an identity that comes back
    after another one is assumed again. *)
Theorem assume_role_once_per_key_change rows st :
  value_of (for_each rows row_body' ([], empty_cache)) = Ok st ->
  length (List.filter is_assume_role
            (trace_of (for_each rows row_body' ([], empty_cache))))
  = key_changes (None, None, None) rows.
Proof.
  destruct st as [out c]. intros Hv.
  by destruct (row_loop_steps _ _ _ _ _ (or_introl eq_refl) Hv) as (_ & ->).
Qed.

(** X17. A post-run over a non-empty staging file whose row loop comes to
    its end assumes the shared role twice (before reading the staged rows
    and again before writing), stages as many outcome rows as rows were
    read, and then sends one mail with the rendered table. *)
Theorem post_run_stages_and_mails
    shared rest account_id role_name region creds out c t :
  open_csv "email_account.csv" = shared :: rest ->
  shared !! "account_id" = Some account_id ->
  shared !! "role_name" = Some role_name ->
  shared !! "region" = Some region ->
  sts_assume_role (role_arn account_id role_name) "MWCheckSession" = Some creds ->
  let staged :=
    get_object_rows
      (client_s3 (boto3_Session (AccessKeyId creds) (SecretAccessKey creds)
                    (SessionToken creds) region))
      "mmpatching-custom-patchbaseline-dev"
      "pre_patch_notification/mw-running-today-output.csv" in
  staged <> [] ->
  for_each staged row_body' ([], empty_cache) = (Ok (out, c), t) ->
  post_patch_function'
  = (Ok tt,
     [StsAssumeRole (role_arn account_id role_name) "MWCheckSession";
      S3GetObject "mmpatching-custom-patchbaseline-dev"
        "pre_patch_notification/mw-running-today-output.csv"]
     ++ t
     ++ [StsAssumeRole (role_arn account_id role_name) "MWCheckSession";
         S3PutObject "mmpatching-custom-patchbaseline-dev"
           "post_patch_notification/mw-post-patch-output.csv" (length staged);
         SesSendEmail "Post Patch Status Report" (build_html_table_post out)]).
Proof.
  intros Hcsv Ha Hr Hg Hsts staged Hne Hloop.
  assert (length out = length staged /\ out <> []) as [Hlen Hout].
  { destruct (row_loop_steps staged [] empty_cache out c (or_introl eq_refl))
      as ((new & -> & Hnew) & _); [by rewrite Hloop|].
    apply Forall2_length in Hnew. split; [done|].
    destruct new; [|done]. by destruct staged. }
  assert (load_shared_account open_csv "email_account.csv"
          = ret (account_id, role_name, region)) as Hload.
  { unfold load_shared_account, row_get. by rewrite Hcsv, Ha, Hr, Hg. }
  assert (assume_role' account_id role_name region
          = (Ok (boto3_Session (AccessKeyId creds) (SecretAccessKey creds)
                   (SessionToken creds) region),
             [StsAssumeRole (role_arn account_id role_name) "MWCheckSession"]))
    as Hassume.
  { unfold assume_role. fold (role_arn account_id role_name). by rewrite Hsts. }
  unfold post_patch_function, read_csv_from_s3.
  rewrite Hload, bind_ret, Hassume.
  cbn [bind emit ret print fst snd app].
  unfold INPUT_BUCKET, PRE_PATCH_KEY. fold staged.
  destruct staged as [|row0 staged'] eqn:Hst; [done|].
  rewrite Hloop. cbn [bind emit ret print fst snd app].
  rewrite Hassume. unfold write_csv_to_s3, send_email_ses, POST_PATCH_KEY.
  destruct out as [|o out']; [done|].
  cbn [bind emit ret app fst snd]. rewrite Hlen.
  by rewrite <- ?app_assoc.
Qed.

End PostRun.

(** * The further properties on the deployment *)

Section MoreExamples.
Import Scenario.

Lemma zero_counts_without_execution_witness :
  get_patch_status_counts json_loads Combined.failure_statuses ssm "window-7"
  = (Ok (0, 0), [Print (MsgInvalidWindowId "window-7")]).
Proof.
  apply (zero_counts_without_execution json_loads Combined.failure_statuses ssm
           "window-7").
  reflexivity.
Defined.

Lemma non_install_invocation_skipped_witness :
  let inv := Staged.invocation_with (payload "Scan") (Some "cmd-scan") in
  inv_body json_loads Combined.failure_statuses ssm "task-patch" inv (3, 1)
  = (Ok (3, 1), [Print (MsgOperation "task-patch" (JList [JStr "Scan"]))]).
Proof.
  intros inv.
  apply (non_install_invocation_skipped json_loads Combined.failure_statuses ssm
           "task-patch" inv (JList [JStr "Scan"]) (3, 1)).
  - reflexivity.
  - reflexivity.
Defined.

Lemma install_without_command_id_skipped_witness :
  let inv := Staged.invocation_with (payload "Install") None in
  inv_body json_loads Combined.failure_statuses ssm "task-patch" inv (3, 1)
  = (Ok (3, 1), [Print (MsgOperation "task-patch" (JList [JStr "Install"]));
                 Print (MsgInstallCommand None)]).
Proof.
  intros inv.
  apply (install_without_command_id_skipped json_loads Combined.failure_statuses
           ssm "task-patch" inv (JList [JStr "Install"]) (3, 1)).
  - reflexivity.
  - reflexivity.
  - left. reflexivity.
Defined.

Lemma install_invocation_tally_witness :
  let inv := Staged.invocation_with (payload "Install") (Some "cmd-install") in
  value_of (inv_body json_loads PostPatch.failure_statuses ssm "task-patch" inv (0, 0))
  = Ok (3, 1).
Proof.
  intros inv.
  rewrite (install_invocation_tally json_loads PostPatch.failure_statuses ssm
             "task-patch" inv (JList [JStr "Install"]) "cmd-install" (0, 0)).
  - reflexivity.
  - reflexivity.
  - reflexivity.
  - reflexivity.
  - discriminate.
Defined.

Lemma counts_match_examined_witness :
  let run := get_patch_status_counts json_loads Combined.failure_statuses ssm
               "mw-0a1b2c3d4e5f60718" in
  (3, 1) = (successes (examined (trace_of run)),
            failures Combined.failure_statuses (examined (trace_of run))).
Proof.
  intros run.
  apply (counts_match_examined json_loads Combined.failure_statuses ssm
           "mw-0a1b2c3d4e5f60718" (3, 1)).
  vm_compute. reflexivity.
Defined.

Lemma non_object_payload_raises_witness :
  let inv := Staged.invocation_with "[1, 2]" (Some "cmd-install") in
  inv_body Staged.json_loads Combined.failure_statuses ssm "task-patch" inv (3, 1)
  = (Raised AttributeError, []).
Proof.
  intros inv.
  apply (non_object_payload_raises Staged.json_loads Combined.failure_statuses ssm
           "task-patch" inv "[1, 2]" (JList [JInt 1; JInt 2]) [] [] (3, 1)).
  - reflexivity.
  - discriminate.
  - reflexivity.
  - left. reflexivity.
Defined.

Lemma non_iterable_operation_raises_witness :
  let inv := Staged.invocation_with Staged.null_operation (Some "cmd-install") in
  inv_body Staged.json_loads Combined.failure_statuses ssm "task-patch" inv (3, 1)
  = (Raised TypeError, [Print (MsgOperation "task-patch" JNull)]).
Proof.
  intros inv.
  apply (non_iterable_operation_raises Staged.json_loads Combined.failure_statuses
           ssm "task-patch" inv JNull [] [] (3, 1)).
  - reflexivity.
  - reflexivity.
Defined.

Lemma tag_clause_keeps_rule_key_witness :
  TargetResolver.rule_body resourcegroups
    {| Key := "tag:PatchGroup"; Values := ["prod"] |} (3, [])
  = ret (3, [{| filter_Name := "tag:PatchGroup"; filter_Values := ["prod"] |}]).
Proof.
  apply (tag_clause_keeps_rule_key resourcegroups "PatchGroup" ["prod"] 3 []).
  reflexivity.
Defined.

Lemma readable_window : readable fromisoformat window.
Proof.
  intros next_execution_time [= <-] _. eexists. reflexivity.
Defined.

Lemma window_loop_rows_witness :
  value_of (for_each [window] (window_body fromisoformat clock
                                 "111111111111" "PatchRole" "us-east-1" session) [])
  = Ok ([] ++ [{| f_AccountId := "111111111111";
           f_Region := "us-east-1";
           f_RoleName := "PatchRole";
           f_MaintenanceWindowId := "mw-0a1b2c3d4e5f60718";
           f_MaintenanceWindowName := "mmpatching-weekly";
           f_TargetInstanceCount := 5 |}]).
Proof.
  apply (window_loop_rows fromisoformat clock
           "111111111111" "PatchRole" "us-east-1" session [window] []).
  constructor; [apply readable_window|constructor].
Defined.

Lemma granted_account_ok :
  account_ok sts_assume_role boto3_Session fromisoformat granted.
Proof.
  exists session. split; [vm_compute; reflexivity|].
  constructor; [apply readable_window|constructor].
Defined.

Lemma no_window_in_scope_is_a_no_op_witness :
  value_of (lambda_handler sts_assume_role boto3_Session fromisoformat Staged.later
              (fun _ => [granted]) open_csv build_html_table_pre)
  = Ok {| status := "success"; records_written := 0;
          result_message := Some "No MWs found, notification skipped" |}.
Proof.
  destruct (no_window_in_scope_is_a_no_op sts_assume_role boto3_Session
              fromisoformat Staged.later (fun _ => [granted]) open_csv
              build_html_table_pre) as [Hrun _].
  - constructor; [apply granted_account_ok|constructor].
  - vm_compute. reflexivity.
  - rewrite Hrun. reflexivity.
Defined.

Lemma in_scope_windows_are_staged_and_mailed_witness :
  value_of (pre_run [granted])
  = Ok {| status := "success"; records_written := 1; result_message := None |}.
Proof.
  unfold pre_run.
  rewrite (in_scope_windows_are_staged_and_mailed sts_assume_role boto3_Session
             fromisoformat clock (fun _ => [granted]) open_csv build_html_table_pre
             granted [] "111111111111" "PatchRole" "us-east-1"
             {| AccessKeyId := "AKIA"; SecretAccessKey := "secret";
                SessionToken := "token" |}).
  - vm_compute. reflexivity.
  - constructor; [apply granted_account_ok|constructor].
  - vm_compute. discriminate.
  - reflexivity.
  - vm_compute. reflexivity.
  - vm_compute. reflexivity.
  - vm_compute. reflexivity.
  - reflexivity.
Defined.

Lemma empty_staging_file_ends_in_name_error_witness :
  value_of (post_patch_function sts_assume_role boto3_Session json_loads
              Combined.failure_statuses open_csv Staged.build_html_table_post)
  = Raised (NameError "sys").
Proof.
  rewrite (empty_staging_file_ends_in_name_error sts_assume_role boto3_Session
             json_loads Combined.failure_statuses open_csv
             Staged.build_html_table_post granted [] "111111111111" "PatchRole"
             "us-east-1"
             {| AccessKeyId := "AKIA"; SecretAccessKey := "secret";
                SessionToken := "token" |}).
  - reflexivity.
  - reflexivity.
  - vm_compute. reflexivity.
  - vm_compute. reflexivity.
  - vm_compute. reflexivity.
  - reflexivity.
  - reflexivity.
Defined.

Lemma staged_loop_ends :
  exists out c t,
    for_each Staged.rows
      (row_body sts_assume_role Staged.boto3_Session json_loads
         Combined.failure_statuses) ([], empty_cache)
    = (Ok (out, c), t).
Proof.
  destruct (for_each Staged.rows _ _) as [[[out c]|e] t] eqn:Hloop.
  - by exists out, c, t.
  - vm_compute in Hloop. discriminate.
Defined.

Lemma session_memo_single_slot_witness :
  let body := row_body sts_assume_role Staged.boto3_Session json_loads
                Combined.failure_statuses in
  let first := Staged.staged_row "111111111111" "mw-0a1b2c3d4e5f60718" in
  let second := Staged.staged_row "111111111111" "mw-explicit" in
  let third := Staged.staged_row "222222222222" "mw-overlap" in
  let fourth := Staged.staged_row "111111111111" "window-7" in
  (exists out c t,
     for_each [first] body ([], empty_cache) = (Ok (out, c), t)
     /\ List.filter is_assume_role (trace_of (body second (out, c))) = [])
  /\ (exists out c t,
        for_each [first; second] body ([], empty_cache) = (Ok (out, c), t)
        /\ List.filter is_assume_role (trace_of (body third (out, c)))
           = [StsAssumeRole (role_arn "222222222222" "PatchRole") "MWCheckSession"]).
Proof.
  intros body first second third fourth. split.
  - destruct (for_each [first] body ([], empty_cache)) as [[[out c]|e] t] eqn:Hloop;
      [|vm_compute in Hloop; discriminate].
    exists out, c, t. split; [reflexivity|].
    destruct (session_memo_single_slot sts_assume_role Staged.boto3_Session
                json_loads Combined.failure_statuses
                [first] second [third; fourth]
                "111111111111" "PatchRole" "us-east-1"
                "mw-explicit" "mmpatching-weekly" out c t Hloop
                eq_refl eq_refl eq_refl eq_refl eq_refl)
      as (_ & Hlast & _ & Hhit & _).
    destruct Hhit as (session & _ & _ & Hnone & _); [|exact Hnone].
    rewrite Hlast. vm_compute. reflexivity.
  - destruct (for_each [first; second] body ([], empty_cache))
      as [[[out c]|e] t] eqn:Hloop; [|vm_compute in Hloop; discriminate].
    exists out, c, t. split; [reflexivity|].
    destruct (session_memo_single_slot sts_assume_role Staged.boto3_Session
                json_loads Combined.failure_statuses
                [first; second] third [fourth]
                "222222222222" "PatchRole" "us-east-1"
                "mw-overlap" "mmpatching-weekly" out c t Hloop
                eq_refl eq_refl eq_refl eq_refl eq_refl)
      as (_ & Hlast & _ & _ & Hmiss).
    destruct Hmiss as (Hone & _); [|exact Hone].
    rewrite Hlast. vm_compute. discriminate.
Defined.

Lemma outcome_rows_carry_staged_rows_witness :
  exists out c,
    value_of (for_each Staged.rows
                (row_body sts_assume_role Staged.boto3_Session json_loads
                   Combined.failure_statuses) ([], empty_cache))
    = Ok (out, c)
    /\ Forall2 carried Staged.rows out.
Proof.
  destruct staged_loop_ends as (out & c & t & Hloop).
  exists out, c. rewrite Hloop. split; [reflexivity|].
  destruct (outcome_rows_carry_staged_rows sts_assume_role Staged.boto3_Session
              json_loads Combined.failure_statuses Staged.rows [] empty_cache out c)
    as (new & Hout & Hnew & _).
  - left. reflexivity.
  - rewrite Hloop. reflexivity.
  - cbn in Hout. by rewrite Hout.
Defined.

Lemma assume_role_once_per_key_change_witness :
  length (List.filter is_assume_role
            (trace_of (for_each Staged.rows
                         (row_body sts_assume_role Staged.boto3_Session json_loads
                            Combined.failure_statuses) ([], empty_cache))))
  = 3.
Proof.
  destruct staged_loop_ends as (out & c & t & Hloop).
  rewrite (assume_role_once_per_key_change sts_assume_role Staged.boto3_Session
             json_loads Combined.failure_statuses Staged.rows (out, c)).
  - vm_compute. reflexivity.
  - rewrite Hloop. reflexivity.
Defined.

Lemma post_run_stages_and_mails_witness :
  value_of (post_patch_function sts_assume_role Staged.boto3_Session json_loads
              Combined.failure_statuses open_csv Staged.build_html_table_post)
  = Ok tt.
Proof.
  destruct staged_loop_ends as (out & c & t & Hloop).
  rewrite (post_run_stages_and_mails sts_assume_role Staged.boto3_Session
             json_loads Combined.failure_statuses open_csv
             Staged.build_html_table_post granted [] "111111111111" "PatchRole"
             "us-east-1"
             {| AccessKeyId := "AKIA"; SecretAccessKey := "secret";
                SessionToken := "token" |} out c t).
  - reflexivity.
  - reflexivity.
  - vm_compute. reflexivity.
  - vm_compute. reflexivity.
  - vm_compute. reflexivity.
  - reflexivity.
  - discriminate.
  - exact Hloop.
Defined.

End MoreExamples.


(** ** Report builder *)

Lemma append_cons (x : ascii) (a b : string) :
  String x a +:+ b = String x (a +:+ b).
Proof. reflexivity. Qed.

Lemma append_assoc (a b c : string) : (a +:+ b) +:+ c = a +:+ (b +:+ c).
Proof. induction a as [|x a IH]; [done|]. by rewrite !append_cons, IH. Qed.

Lemma append_nil_r (a : string) : a +:+ "" = a.
Proof. induction a as [|x a IH]; [done|]. by rewrite append_cons, IH. Qed.

Lemma fold_left_append {A} (f : A -> string) (l : list A) (acc : string) :
  fold_left (fun acc x => acc +:+ f x) l acc = acc +:+ concat_str (f <$> l).
Proof.
  revert acc. induction l as [|x l IH]; intros acc; csimpl.
  - by rewrite append_nil_r.
  - by rewrite IH, append_assoc.
Qed.

Lemma rev_app_rev_app (s1 s2 s3 : string) :
  String.rev_app (String.rev_app s1 s2) s3 = String.rev_app s2 (s1 +:+ s3).
Proof.
  revert s2 s3. induction s1 as [|c s1 IH]; intros s2 s3; [done|].
  cbn [String.rev_app]. by rewrite IH.
Qed.

Lemma unspace_rev_app (s1 s2 : string) :
  unspace (String.rev_app s1 s2) = String.rev_app (unspace s1) (unspace s2).
Proof.
  revert s2. induction s1 as [|c s1 IH]; intros s2; [done|].
  cbn [String.rev_app unspace]. rewrite IH. cbn [unspace].
  by destruct (Ascii.eqb c " ").
Qed.

Lemma blank_is_space c : Ascii.eqb c " " = true -> isspace c = true.
Proof. intros H. apply Ascii.eqb_eq in H. by subst. Qed.

Lemma upper_is_not_space c : isupper c = true -> isspace c = false.
Proof.
  unfold isupper, isspace. cbv zeta.
  rewrite andb_true_iff, !Nat.leb_le. intros [H1 H2].
  apply orb_false_iff. split; apply andb_false_iff.
  - right. apply Nat.leb_gt. lia.
  - right. apply Nat.leb_gt. lia.
Qed.

Lemma spread_letters header :
  no_space header = true ->
  blanks_only (Report.spread header) = true
  /\ unspace (Report.spread header) = header.
Proof.
  induction header as [|c header IH]; [done|].
  cbn [no_space Report.spread]. rewrite andb_true_iff, negb_true_iff.
  intros [Hc Hrest]. destruct (IH Hrest) as [IH1 IH2].
  assert (Ascii.eqb c " " = false) as Hblank.
  { destruct (Ascii.eqb c " ") eqn:E; [|done]. apply blank_is_space in E. congruence. }
  destruct (isupper c); cbn [blanks_only unspace]; rewrite ?Hc, ?Hblank, IH1, IH2; done.
Qed.

Lemma lstrip_blanks s :
  blanks_only s = true ->
  blanks_only (lstrip s) = true /\ unspace (lstrip s) = unspace s.
Proof.
  induction s as [|c s IH]; [done|].
  cbn [blanks_only lstrip]. rewrite andb_true_iff. intros [Hc Hs].
  destruct (isspace c) eqn:E.
  - cbn in Hc. cbn [unspace]. rewrite Hc. by apply IH.
  - cbn [blanks_only]. by rewrite E, Hs.
Qed.

Lemma blanks_only_rev_app s1 s2 :
  blanks_only (String.rev_app s1 s2) = blanks_only s1 && blanks_only s2.
Proof.
  revert s2. induction s1 as [|c s1 IH]; intros s2; [done|].
  cbn [String.rev_app blanks_only]. rewrite IH. cbn [blanks_only].
  destruct (negb (isspace c) || Ascii.eqb c " "), (blanks_only s1); done.
Qed.

Lemma strip_blanks s :
  blanks_only s = true -> unspace (strip s) = unspace s.
Proof.
  intros Hs. destruct (lstrip_blanks s Hs) as [Hl <-].
  unfold strip, rstrip, String.rev. set (t := lstrip s) in *.
  rewrite unspace_rev_app. cbn [unspace].
  assert (blanks_only (String.rev_app t "") = true) as Ht
    by (by rewrite blanks_only_rev_app, Hl).
  destruct (lstrip_blanks _ Ht) as [_ ->].
  by rewrite unspace_rev_app, rev_app_rev_app, append_nil_r.
Qed.

(** X18. [prettify_header] only puts blanks into a header: for a header
    without white space, taking the blanks out of the prettified text
    gives the header back. *)
Theorem prettify_header_keeps_letters header :
  no_space header = true ->
  unspace (Report.prettify_header header) = header.
Proof.
  intros H. destruct (spread_letters header H) as [Hb Hu].
  unfold Report.prettify_header. by rewrite strip_blanks.
Qed.

Section ReportProperties.
Import Report ReportSpec.

Lemma counter_get_fold (l : list value) (counts : gmap value nat) (v : value) :
  counter_get
    (fold_left (fun counts v => <[v := S (default 0 (counts !! v))]> counts) l counts) v
  = counter_get counts v + length (List.filter (fun x => bool_decide (x = v)) l).
Proof.
  revert counts. induction l as [|x l IH]; intros counts; cbn [fold_left List.filter].
  - cbn. lia.
  - rewrite IH. unfold counter_get. destruct (decide (x = v)) as [->|Hne].
    + rewrite lookup_insert_eq, bool_decide_eq_true_2 by done. cbn. lia.
    + rewrite lookup_insert_ne, bool_decide_eq_false_2 by done. cbn. lia.
Qed.

Lemma counter_get_occurrences rows v :
  counter_get (Counter (account_of <$> rows)) v = occurrences v rows.
Proof.
  unfold Counter, occurrences. rewrite counter_get_fold.
  unfold counter_get. rewrite lookup_empty. cbn.
  induction rows as [|row rows IH]; [done|]. csimpl.
  destruct (bool_decide (account_of row = v)); cbn; by rewrite IH.
Qed.

Lemma accounts_of_rows rows accounts :
  mapM (item "AccountId") rows = Some accounts -> accounts = account_of <$> rows.
Proof.
  rewrite mapM_Some. induction 1 as [|row v rows accounts Hv _ IH]; [done|].
  csimpl. unfold account_of at 1. rewrite Hv. by rewrite IH.
Qed.

Lemma NoDup_list_filter {A} (f : A -> bool) (l : list A) :
  NoDup l -> NoDup (List.filter f l).
Proof.
  induction 1 as [|x l Hx _ IH]; cbn; [constructor|].
  destruct (f x); [|done]. constructor; [|done].
  rewrite list_elem_of_In, List.filter_In, <- list_elem_of_In. tauto.
Qed.

Lemma cells_without_account counts row hs body rendered :
  "AccountId" ∉ hs ->
  fold_left (cell_step counts row) hs (body, rendered)
  = (body +:+ concat_str ((fun h => plain_cell (default (VStr "") (item h row))) <$> hs),
     rendered).
Proof.
  revert body. induction hs as [|h hs IH]; intros body Hnot; csimpl.
  - by rewrite append_nil_r.
  - apply not_elem_of_cons in Hnot as [Hh Hnot].
    apply not_eq_sym, String.eqb_neq in Hh. rewrite Hh, IH by done.
    unfold plain_cell. by rewrite append_assoc.
Qed.

Lemma cells_of_row all earlier row hs body rendered :
  NoDup hs ->
  ("AccountId" ∈ hs -> rendered = list_to_set (account_of <$> earlier)) ->
  exists rendered',
    fold_left (cell_step (Counter (account_of <$> all)) row) hs (body, rendered)
    = (body +:+ concat_str (cell_html all earlier row <$> hs), rendered')
    /\ ("AccountId" ∈ hs -> rendered' = list_to_set (account_of <$> earlier ++ [row])).
Proof.
  intros Hnd. revert body. induction Hnd as [|h hs Hh Hnd IH]; intros body Hr.
  - exists rendered. cbn. rewrite append_nil_r. split; [done|]. by intros ?%elem_of_nil.
  - cbn [fold_left]. unfold cell_step at 2.
    destruct (String.eqb h "AccountId") eqn:E.
    + apply String.eqb_eq in E. subst h.
      rewrite (Hr ltac:(by left)). cbv zeta.
      fold (account_of row). rewrite counter_get_occurrences.
      assert (list_to_set (account_of <$> earlier ++ [row])
              = {[account_of row]} ∪ list_to_set (C := gset value) (account_of <$> earlier))
        as Hset by (rewrite fmap_app, list_to_set_app_L; set_solver).
      assert (cell_html all earlier row <$> hs
              = (fun h => plain_cell (default (VStr "") (item h row))) <$> hs) as Hplain.
      { apply list_fmap_ext. intros i h Hi. unfold cell_html.
        destruct (String.eqb h "AccountId") eqn:E; [|done].
        apply String.eqb_eq in E. subst h. destruct Hh.
        by eapply list_elem_of_lookup_2. }
      csimpl. rewrite Hplain. unfold cell_html at 1. cbn [String.eqb Ascii.eqb Bool.eqb].
      destruct (decide (account_of row ∉ _)) as [Hin|Hin].
      * rewrite cells_without_account by done. eexists. split.
        -- rewrite bool_decide_eq_false_2
             by (by rewrite elem_of_list_to_set in Hin).
           unfold account_cell. by rewrite append_assoc.
        -- intros _. by rewrite Hset.
      * rewrite cells_without_account by done. eexists. split.
        -- apply dec_stable in Hin.
           by rewrite bool_decide_eq_true_2 by (by rewrite elem_of_list_to_set in Hin).
        -- intros _. apply dec_stable in Hin. rewrite Hset. set_solver.
    + destruct (IH (body +:+ ("<td>" +:+ html_escape
                                (str (default (VStr "") (item h row))) +:+ "</td>")))
        as (rendered' & IH1 & IH2).
      { intros Hin. apply Hr. by right. }
      exists rendered'. cbv zeta. rewrite IH1. split.
      * csimpl. unfold cell_html at 2. rewrite E. unfold plain_cell.
        by rewrite append_assoc.
      * intros [Heq|Hin]%elem_of_cons; [|by apply IH2].
        subst h. by rewrite String.eqb_refl in E.
Qed.

Lemma rows_of_table all earlier rows hs body rendered :
  NoDup hs ->
  ("AccountId" ∈ hs -> rendered = list_to_set (account_of <$> earlier)) ->
  (fold_left (row_step (Counter (account_of <$> all)) hs) rows (body, rendered)).1
  = body +:+ rows_html hs all earlier rows.
Proof.
  intros Hnd. revert earlier body rendered.
  induction rows as [|row rows IH]; intros earlier body rendered Hr.
  - cbn. by rewrite append_nil_r.
  - cbn [fold_left rows_html]. unfold row_step at 2.
    destruct (cells_of_row all earlier row hs (body +:+ "<tr>") rendered Hnd Hr)
      as (rendered1 & -> & H2).
    rewrite (IH (earlier ++ [row])) by done.
    unfold row_html. by rewrite !append_assoc.
Qed.

(** X19. The table [build_html_table] writes, in closed form. Its columns
    are the keys of the first row without the three excluded ones, each
    under its prettified, escaped header. Every row gives one [<tr>] with a
    plain cell per column, read with a blank default; in the account
    column a cell is written only for the first row of each account, with
    a [rowspan] that is the number of rows of that account anywhere in the
    list, adjacent or not, and the later rows of the account get no cell
    there. *)
Theorem report_table_closed_form intro_message first rest :
  NoDup (fst <$> first) ->
  Forall (fun row => is_Some (item "AccountId" row)) (first :: rest) ->
  build_with intro_message (first :: rest)
  = Ok (table_head intro_message
        +:+ concat_str (th <$> columns first)
        +:+ "</tr>"
        +:+ rows_html (columns first) (first :: rest) [] (first :: rest)
        +:+ table_tail).
Proof.
  intros Hnd Hacc. unfold build_with. fold (columns first).
  destruct (mapM (item "AccountId") (first :: rest)) as [accounts|] eqn:Hm.
  2: { apply (mapM_is_Some_2 (item "AccountId")) in Hacc.
       rewrite Hm in Hacc. by destruct Hacc. }
  apply accounts_of_rows in Hm. subst accounts.
  assert (NoDup (columns first)) as Hcols by (by apply NoDup_list_filter).
  pose proof (rows_of_table (first :: rest) [] (first :: rest) (columns first)
                (fold_left (fun html_body header =>
                              html_body +:+ ("<th>" +:+ html_escape (prettify_header header)
                                             +:+ "</th>"))
                           (columns first) (table_head intro_message) +:+ "</tr>")
                ∅ Hcols ltac:(done)) as Hrows.
  destruct (fold_left (row_step _ _) _ _) as [html_body rendered].
  cbn [fst] in Hrows. subst html_body.
  rewrite (fold_left_append th). by rewrite !append_assoc.
Qed.

(** X20. [build_html_table] reads the account of every row with
    [row["AccountId"]] before it writes anything: a non-empty list with a
    row that lacks the key ends in [KeyError], and a list whose rows all
    have it is rendered. The rows the two phases build have the key, so
    their reports are always rendered. *)
Theorem report_needs_account_ids intro_message rows :
  (Forall (fun row => is_Some (item "AccountId" row)) rows ->
   exists html, build_with intro_message rows = Ok html)
  /\ (rows <> [] ->
      Exists (fun row => item "AccountId" row = None) rows ->
      build_with intro_message rows = Raised (KeyError "AccountId"))
  /\ (forall forecast, exists html,
        build_html_table_pre (forecast_dict <$> forecast) = Ok html)
  /\ (forall outcome, exists html,
        build_html_table_post (outcome_dict <$> outcome) = Ok html).
Proof.
  assert (forall intro rows,
            Forall (fun row => is_Some (item "AccountId" row)) rows ->
            exists html, build_with intro rows = Ok html) as Hok.
  { intros intro [|first rest] Hacc; [by eexists|].
    unfold build_with.
    apply (mapM_is_Some_2 (item "AccountId")) in Hacc as [accounts ->].
    destruct (fold_left (row_step _ _) _ _). by eexists. }
  split; [apply Hok|split; [|split]].
  - intros Hne Hex. destruct rows as [|first rest]; [done|].
    unfold build_with.
    destruct (mapM (item "AccountId") (first :: rest)) as [accounts|] eqn:Hm; [|done].
    assert (is_Some (mapM (item "AccountId") (first :: rest))) as Hs by (by rewrite Hm).
    apply mapM_is_Some_1 in Hs. apply Exists_exists in Hex as (row & Hin & Hnone).
    rewrite Forall_forall in Hs. destruct (Hs row Hin) as [v Hv]. cbn in Hv. congruence.
  - intros forecast. apply Hok. apply Forall_fmap, Forall_true. by eexists.
  - intros outcome. apply Hok. apply Forall_fmap, Forall_true. by eexists.
Qed.

End ReportProperties.

(** * The report properties on concrete rows *)

Section ReportExamples.
Import Report ReportSpec.

Definition sample_rows : list forecast_row :=
  [{| f_AccountId := "111111111111"; f_Region := "us-east-1";
      f_RoleName := "PatchRole"; f_MaintenanceWindowId := "mw-0a1b2c3d4e5f60718";
      f_MaintenanceWindowName := "mmpatching-a&b"; f_TargetInstanceCount := 5 |};
   {| f_AccountId := "222222222222"; f_Region := "us-east-1";
      f_RoleName := "PatchRole"; f_MaintenanceWindowId := "mw-1";
      f_MaintenanceWindowName := "mmpatching-c"; f_TargetInstanceCount := 0 |};
   {| f_AccountId := "111111111111"; f_Region := "us-east-1";
      f_RoleName := "PatchRole"; f_MaintenanceWindowId := "mw-2";
      f_MaintenanceWindowName := "mmpatching-d"; f_TargetInstanceCount := 12 |}].

Lemma prettify_header_keeps_letters_witness :
  unspace (prettify_header "MaintenanceWindowName") = "MaintenanceWindowName".
Proof.
  apply (prettify_header_keeps_letters "MaintenanceWindowName").
  reflexivity.
Defined.

Lemma report_table_closed_form_witness :
  exists first rest,
    forecast_dict <$> sample_rows = first :: rest
    /\ build_html_table_pre (forecast_dict <$> sample_rows)
       = Ok (table_head "Below are the Maintenance Windows running today:"
             +:+ concat_str (th <$> ["AccountId"; "MaintenanceWindowName";
                                     "TargetInstanceCount"])
             +:+ "</tr>"
             +:+ rows_html (columns first) (first :: rest) [] (first :: rest)
             +:+ table_tail).
Proof.
  eexists _, _. split; [reflexivity|].
  apply (report_table_closed_form "Below are the Maintenance Windows running today:").
  - compute_done.
  - repeat constructor; eexists; reflexivity.
Defined.

Lemma report_needs_account_ids_witness :
  build_with "Below are the Maintenance Windows running today:"
    [[("AccountId", VStr "111111111111"); ("TargetInstanceCount", VInt 5)];
     [("Region", VStr "us-east-1"); ("TargetInstanceCount", VInt 2)]]
  = Raised (KeyError "AccountId").
Proof.
  apply (report_needs_account_ids "Below are the Maintenance Windows running today:").
  - discriminate.
  - right. left. reflexivity.
Defined.

End ReportExamples.

(** ** Pre-run handler: unreadable times and role assumptions *)

Section PreRunEdges.

Variable sts_assume_role : string -> string -> option credentials.
Variable boto3_Session : string -> string -> string -> string -> Session.
Variable fromisoformat : string -> option datetime.
Variable clock : Z.

Local Abbreviation window_body' := (window_body fromisoformat clock).
Local Abbreviation account_body' :=
  (account_body sts_assume_role boto3_Session fromisoformat clock).

(** X21. A window that passes the name test but whose next execution time
    is a text [fromisoformat] rejects stops the window loop with
    [ValueError]: nothing catches it, so the rows gathered so far are not
    returned and the windows after it are not looked at. No target query
    is made for that window. *)
Theorem unreadable_time_ends_window_loop
    account_id role_name region session mw s before after rows :
  NextExecutionTime mw = Some (TimeStr s) ->
  startswith (default "" (Name mw)) "mmpatching" = true ->
  fromisoformat (replace s "Z" "+00:00") = None ->
  (forall rows1,
     window_body' account_id role_name region session mw rows1
     = (Raised ValueError, []))
  /\ value_of (for_each (before ++ mw :: after)
                 (window_body' account_id role_name region session) rows)
     = match value_of (for_each before
                         (window_body' account_id role_name region session) rows) with
       | Ok _ => Raised ValueError
       | Raised e => Raised e
       end.
Proof.
  intros Hnet Hname Hparse.
  assert (forall rows1,
            window_body' account_id role_name region session mw rows1
            = (Raised ValueError, [])) as Hbody.
  { intros rows1. unfold window_body, runs_today.
    by rewrite Hnet, Hname, Hparse. }
  split; [done|]. apply for_each_raises. intros rows1. by rewrite Hbody.
Qed.

Lemma window_loop_no_assume_role account_id role_name region session windows rows :
  Forall (fun ev => is_assume_role ev = false)
         (trace_of (for_each windows
                      (window_body' account_id role_name region session) rows)).
Proof.
  unfold window_body, runs_today, print,
    TargetResolver.get_target_count, TargetResolver.target_body,
    TargetResolver.rule_body, TargetResolver.resolve_group,
    TargetResolver.resolve_tags, getitem.
  trace_walk.
Qed.

Lemma account_body_assume_role row rows :
  account_ok sts_assume_role boto3_Session fromisoformat row ->
  List.filter is_assume_role (trace_of (account_body' row rows))
  = [StsAssumeRole (role_arn (default "" (row !! "account_id"))
                             (default "" (row !! "role_name"))) "MWCheckSession"].
Proof.
  intros (session & Hs & _). unfold account_session in Hs.
  unfold account_body, row_get.
  destruct (row !! "account_id") as [a|]; [|done].
  destruct (row !! "role_name") as [r|]; [|done].
  destruct (row !! "region") as [g|]; [|done].
  cbn [mbind option_bind] in Hs.
  destruct (sts_assume_role (role_arn a r) "MWCheckSession") as [creds|] eqn:Hsts;
    [|done].
  rewrite !bind_ret, trace_of_bind, assume_role_trace, assume_role_value, Hsts.
  rewrite trace_of_bind. cbn [emit trace_of value_of fst snd app List.filter
                                is_assume_role default from_option id].
  f_equal. apply filter_none, window_loop_no_assume_role.
Qed.

(** X22. The pre-run keeps no session between rows: over an accounts file
    whose rows all go through, [assume_role] is called once per row, in
    file order, also when consecutive rows name the same account, role and
    region. *)
Theorem pre_run_assumes_role_per_row accounts rows :
  Forall (account_ok sts_assume_role boto3_Session fromisoformat) accounts ->
  List.filter is_assume_role (trace_of (for_each accounts account_body' rows))
  = (fun row => StsAssumeRole (role_arn (default "" (row !! "account_id"))
                                        (default "" (row !! "role_name")))
                  "MWCheckSession") <$> accounts.
Proof.
  intros Hok. revert rows.
  induction Hok as [|row accounts Hrow Hok IH]; intros rows; cbn [for_each].
  - done.
  - rewrite trace_of_bind, List.filter_app, (account_body_assume_role _ _ Hrow).
    rewrite (account_body_value _ _ _ _ _ _ Hrow), IH. done.
Qed.

End PreRunEdges.

Section PreRunExamples.
Import Scenario.

Lemma unreadable_time_ends_window_loop_witness :
  let mw := {| WindowId := "mw-0f9e8d7c6b5a43210";
               Name := Some "mmpatching-monthly";
               NextExecutionTime := Some (TimeStr "next tuesday") |} in
  value_of (for_each [window; mw; window]
              (window_body fromisoformat clock "111111111111" "PatchRole"
                 "us-east-1" session) [])
  = Raised ValueError.
Proof.
  intros mw.
  destruct (unreadable_time_ends_window_loop fromisoformat clock
              "111111111111" "PatchRole" "us-east-1" session mw "next tuesday"
              [window] [window] []) as [_ Hloop].
  - reflexivity.
  - reflexivity.
  - reflexivity.
  - etransitivity; [exact Hloop|]. vm_compute. reflexivity.
Defined.

Lemma pre_run_assumes_role_per_row_witness :
  List.filter is_assume_role
    (trace_of (for_each [granted; granted]
                 (account_body sts_assume_role boto3_Session fromisoformat clock) []))
  = [StsAssumeRole "arn:aws:iam::111111111111:role/PatchRole" "MWCheckSession";
     StsAssumeRole "arn:aws:iam::111111111111:role/PatchRole" "MWCheckSession"].
Proof.
  rewrite (pre_run_assumes_role_per_row sts_assume_role boto3_Session fromisoformat
             clock [granted; granted] []).
  - vm_compute. reflexivity.
  - repeat constructor; apply granted_account_ok.
Defined.

End PreRunExamples.
